(** * market-news: the resilience layer

    A shallow embedding of [market_news_generator/cache_mixin.py] (the TTL
    cache with its 429 fallback), of the provider chain of
    [market_news_generator/enhanced_market_data.py] and of the providers
    built on the cache, followed by the properties of the specification
    that concern them.

    Conventions of the embedding
    - A Python value that may be [None] is an [option]; [None] is [None].
    - Timestamps are integers in an arbitrary unit.  Every call of
      [time.time()] in the source is one reading of a clock: the [n]-th
      reading made so far yields [clock n], and the state counts the
      readings.  Time that passes between two readings (for instance while
      a fetch is on the wire) shows as a gap between consecutive readings.
    - A raised exception is a value [Raise e]; only instances of
      [Exception] are modelled, which is what [except Exception] catches.
    - Calls of collaborators are counted or logged in the state, so that
      "is not invoked" is a statement about that state. *)

From Stdlib Require Import Ascii.
From stdpp Require Import base gmap strings list sorting.

Local Open Scope Z_scope.

(** ** Python results *)

(** An exception instance: its class name and the text [str(e)] gives. *)
Record PyException := mkExc { exc_class : string; exc_str : string }.

Inductive Outcome (A : Type) : Type :=
  | Return (a : A)
  | Raise (e : PyException).
Arguments Return {A} a.
Arguments Raise {A} e.

(** ** Text helpers used by the cache *)

Module PyStr.

(** [c.lower()] on one character of the ASCII range. *)
Definition lower_char (c : ascii) : ascii :=
  let n := nat_of_ascii c in
  if ((65 <=? n)%nat && (n <=? 90)%nat)%bool then ascii_of_nat (n + 32) else c.

(** [s.lower()]. *)
Fixpoint lower (s : string) : string :=
  match s with
  | EmptyString => EmptyString
  | String c s' => String (lower_char c) (lower s')
  end.

(** [needle in hay]. *)
Fixpoint contains (needle hay : string) : bool :=
  String.prefix needle hay
  || match hay with
     | EmptyString => false
     | String _ hay' => contains needle hay'
     end.

(** [sep.join(parts)]. *)
Definition join (sep : string) (parts : list string) : string :=
  String.concat sep parts.

End PyStr.

(** ** cache_mixin.py *)

Module CacheMixin.

(** One value of [self._cache]: the dict with the keys ["data"],
    ["expires_at"] and ["created_at"]. *)
Record Entry (V : Type) := mkEntry {
  data : option V;
  expires_at : Z;
  created_at : Z;
}.
Arguments mkEntry {V} _ _ _.
Arguments data {V} _.
Arguments expires_at {V} _.
Arguments created_at {V} _.

(** The mixin instance together with the two counters of the
    environment: clock readings made and fetches invoked so far. *)
Record State (V : Type) := mkState {
  _cache : gmap string (Entry V);
  _default_ttl : Z;
  reads : nat;
  fetches : nat;
}.
Arguments mkState {V} _ _ _ _.
Arguments _cache {V} _.
Arguments _default_ttl {V} _.
Arguments reads {V} _.
Arguments fetches {V} _.

(** [CacheMixin.__init__]: empty cache, five minutes. *)
Definition init {V : Type} : State V := mkState ∅ 300 0 0.

Definition set_cache {V} (c : gmap string (Entry V)) (w : State V) : State V :=
  mkState c (_default_ttl w) (reads w) (fetches w).

Section key.
Context {Arg : Type} (str : Arg → string).

(** The order [sorted] uses on [kwargs.items()]: tuples compare by
    their first component, and the names of keyword arguments are
    pairwise distinct, so the second component is never looked at. *)
Definition kwarg_le (x y : string * Arg) : Prop := String.le x.1 y.1.

#[local] Instance kwarg_le_dec : RelDecision kwarg_le.
Proof. intros x y. unfold kwarg_le. apply _. Defined.

(** [sorted(kwargs.items())]; Python's sort is a merge sort too. *)
Definition sorted (items : list (string * Arg)) : list (string * Arg) :=
  merge_sort kwarg_le items.

(** [f"{k}={v}"]. *)
Definition fmt_kwarg (kv : string * Arg) : string :=
  kv.1 +:+ "=" +:+ str kv.2.

Definition _getCacheKey (methodName : string) (args : list Arg)
    (kwargs : list (string * Arg)) : string :=
  let keyParts := [methodName] in
  let keyParts := keyParts ++ (str <$> args) in
  let keyParts := keyParts ++ (fmt_kwarg <$> sorted kwargs) in
  PyStr.join "|" keyParts.
End key.

(** The test of the [except] branch of [_cachedCall]. *)
Definition isRateLimitError (e : PyException) : bool :=
  let errorStr := PyStr.lower (exc_str e) in
  PyStr.contains "429" errorStr
  || PyStr.contains "rate limit exceeded" errorStr
  || PyStr.contains "too many requests" errorStr
  || PyStr.contains "rate limited" errorStr.

Section store.
Context {V : Type} (clock : nat → Z).

(** [time.time()]. *)
Definition time_time (w : State V) : Z * State V :=
  (clock (reads w),
   mkState (_cache w) (_default_ttl w) (S (reads w)) (fetches w)).

Definition _isExpired (cacheEntry : Entry V) (w : State V) : bool * State V :=
  let '(now, w) := time_time w in
  (bool_decide (now > expires_at cacheEntry), w).

(** The keys the list comprehension of [_evictExpired] collects. *)
Definition expiredKeys (currentTime : Z) (c : gmap string (Entry V))
    : list string :=
  (filter (λ kv, currentTime > expires_at kv.2) (map_to_list c)).*1.

(** The [for key in expiredKeys: del self._cache[key]] loop. *)
Definition evictAt (currentTime : Z) (c : gmap string (Entry V))
    : gmap string (Entry V) :=
  foldl (λ c key, delete key c) c (expiredKeys currentTime c).

Definition _evictExpired (w : State V) : State V :=
  let '(currentTime, w) := time_time w in
  set_cache (evictAt currentTime (_cache w)) w.

Definition _getCached (cacheKey : string) (allowExpired : bool)
    (w : State V) : option V * State V :=
  let w := if allowExpired then w else _evictExpired w in
  match _cache w !! cacheKey with
  | None => (None, w)
  | Some entry =>
      if allowExpired then (data entry, w)
      else
        let '(expired, w) := _isExpired entry w in
        if negb expired then (data entry, w) else (None, w)
  end.

Definition _setCached (cacheKey : string) (value : option V)
    (ttl : option Z) (w : State V) : State V :=
  let ttl := default (_default_ttl w) ttl in
  let '(t_expires, w) := time_time w in
  let '(t_created, w) := time_time w in
  set_cache
    (<[cacheKey := mkEntry value (t_expires + ttl) t_created]> (_cache w)) w.

(** The number of clock readings made once the fresh-entry test of
    [_cachedCall] is over: [_isExpired] reads the clock if the key has
    an entry, and nothing does otherwise. *)
Definition readsAfterCheck (w : State V) (cacheKey : string) : nat :=
  match _cache w !! cacheKey with
  | Some _ => S (reads w)
  | None => reads w
  end.

(** The state in which [_cachedCall] runs the fetch: the state it was
    called in, after the clock readings of the fresh-entry test. *)
Definition beforeFetch (w : State V) (cacheKey : string) : State V :=
  mkState (_cache w) (_default_ttl w) (readsAfterCheck w cacheKey) (fetches w).

Section call.
Context {Arg : Type} (str : Arg → string).

(** [methodFunc] is any callable.  Run on the arguments in a state of
    the mixin it returns or raises and leaves a state: a bound method
    may read the clock and may call [_cachedCall] on the same cache, as
    [_fetchMultipleStocks] of the Yahoo provider does.  [invoke] is the
    call in the [try] block; it counts one fetch once the call is over. *)
Definition invoke
    (methodFunc : list Arg → list (string * Arg) → State V
                  → Outcome (option V) * State V)
    (args : list Arg) (kwargs : list (string * Arg)) (w : State V)
    : Outcome (option V) * State V :=
  let '(r, w) := methodFunc args kwargs w in
  (r, mkState (_cache w) (_default_ttl w) (reads w) (S (fetches w))).

(** A fetch that only goes to the outside world and leaves the mixin
    alone: [outcome args kwargs n] is what it yields when [n] fetches
    were made before it. *)
Definition externalFetch
    (outcome : list Arg → list (string * Arg) → nat → Outcome (option V))
    : list Arg → list (string * Arg) → State V
      → Outcome (option V) * State V :=
  λ args kwargs w, (outcome args kwargs (fetches w), w).

(** The part of [_cachedCall] below the fresh-entry test. *)
Definition fetchAndStore (cacheKey : string)
    (methodFunc : list Arg → list (string * Arg) → State V
                  → Outcome (option V) * State V)
    (args : list Arg) (ttl : option Z) (kwargs : list (string * Arg))
    (w : State V) : Outcome (option V) * State V :=
  let '(r, w) := invoke methodFunc args kwargs w in
  match r with
  | Return (Some result) =>
      let w := _setCached cacheKey (Some result) ttl w in
      let w := _evictExpired w in
      (Return (Some result), w)
  | Return None => (Return None, w)
  | Raise e =>
      if isRateLimitError e then
        match _cache w !! cacheKey with
        | Some entry => (Return (data entry), w)
        | None => (Return None, w)
        end
      else (Raise e, w)
  end.

Definition _cachedCall (methodName : string)
    (methodFunc : list Arg → list (string * Arg) → State V
                  → Outcome (option V) * State V)
    (args : list Arg) (ttl : option Z) (kwargs : list (string * Arg))
    (w : State V) : Outcome (option V) * State V :=
  let cacheKey := _getCacheKey str methodName args kwargs in
  match _cache w !! cacheKey with
  | Some entry =>
      let '(expired, w) := _isExpired entry w in
      if negb expired then (Return (data entry), w)
      else fetchAndStore cacheKey methodFunc args ttl kwargs w
  | None => fetchAndStore cacheKey methodFunc args ttl kwargs w
  end.
End call.
End store.

End CacheMixin.

(** ** market_data.py: the mock provider *)

(** [StockData], a named tuple of five fields.  Prices are Python floats;
    the model does not look inside them. *)
Record StockData (F : Type) := mkStock {
  symbol : string;
  price : F;
  change : F;
  changePercent : F;
  explanation : string;
}.
Arguments mkStock {F} _ _ _ _ _.
Arguments symbol {F} _.
Arguments price {F} _.
Arguments change {F} _.
Arguments changePercent {F} _.
Arguments explanation {F} _.

(** What the chain asked of its collaborators, oldest call first. *)
Inductive Call : Type :=
  | PriceCall (provider : nat) (sym : string)
  | BatchCall (provider : nat) (syms : list string)
  | MockCall (sym : string).

(** The environment of a query: how many random numbers were drawn, and
    the calls made so far. *)
Record Env := mkEnv { draws : nat; calls : list Call }.

Definition log (c : Call) (env : Env) : Env :=
  mkEnv (draws env) (calls env ++ [c]).

(** Float arithmetic and the random source of [market_data.py]:
    [uniform n] is the [n]-th value [random.uniform(-4.0, 4.0)] returns. *)
Class MockOps (F : Type) := {
  f100 : F;
  fadd : F → F → F;
  fmul : F → F → F;
  fdiv : F → F → F;
  uniform : nat → F;
  _generateExplanation : string → F → string;
}.

Module MarketDataProvider.

Record t (F : Type) := mk {
  topStocks : list string;
  basePrices : gmap string F;
}.
Arguments mk {F} _ _.
Arguments topStocks {F} _.
Arguments basePrices {F} _.

Section mock.
Context {F : Type} `{!MockOps F}.

Definition getStockData (self : t F) (sym : string) (env : Env)
    : StockData F * Env :=
  let env := log (MockCall sym) env in
  let basePrice :=
    match basePrices self !! sym with
    | None => f100
    | Some p => p
    end in
  let changePercent := uniform (draws env) in
  let env := mkEnv (S (draws env)) (calls env) in
  let change := fmul basePrice (fdiv changePercent f100) in
  let currentPrice := fadd basePrice change in
  let explanation := _generateExplanation sym changePercent in
  (mkStock sym currentPrice change changePercent explanation, env).

(** A list comprehension whose body runs in the environment. *)
Fixpoint for_each {A B : Type} (body : A → Env → B * Env) (l : list A)
    (env : Env) : list B * Env :=
  match l with
  | [] => ([], env)
  | x :: l' =>
      let '(y, env) := body x env in
      let '(ys, env) := for_each body l' env in
      (y :: ys, env)
  end.

Definition getAllStocks (self : t F) (env : Env) : list (StockData F) * Env :=
  for_each (getStockData self) (topStocks self) env.
End mock.

End MarketDataProvider.

(** ** interfaces.py and enhanced_market_data.py *)

(** [IFinancialProvider]: what the two methods yield during one query. *)
Record IFinancialProvider (F : Type) := mkProvider {
  getStockPrice : string → Outcome (option (StockData F));
  getMultipleStocks : list string → Outcome (gmap string (StockData F));
}.
Arguments mkProvider {F} _ _.
Arguments getStockPrice {F} _ _.
Arguments getMultipleStocks {F} _ _.

Module EnhancedMarketDataProvider.

Record t (F : Type) := mk {
  mockProvider : MarketDataProvider.t F;
  financialProviders : list (IFinancialProvider F);
}.
Arguments mk {F} _ _.
Arguments mockProvider {F} _.
Arguments financialProviders {F} _.

Section chain.
Context {F : Type} `{!MockOps F}.

(** [if data:] on an [Optional[StockData]]: [None] is false, and a
    named tuple of five fields is never empty, hence true. *)
Definition truthy (value : option (StockData F)) : bool :=
  match value with
  | Some _ => true
  | None => false
  end.

(** The [for provider in self.financialProviders] loop of
    [getStockData], from the provider of index [i] on.  [Some value]
    is the [return data] of the loop body; [None] means the loop ran
    off the end of the list. *)
Fixpoint tryProviders (i : nat) (providers : list (IFinancialProvider F))
    (sym : string) (env : Env) : option (option (StockData F)) * Env :=
  match providers with
  | [] => (None, env)
  | provider :: rest =>
      let env := log (PriceCall i sym) env in
      match getStockPrice provider sym with
      | Return value =>
          if truthy value then (Some value, env)
          else tryProviders (S i) rest sym env
      | Raise _ => tryProviders (S i) rest sym env
      end
  end.

Definition getStockData (self : t F) (sym : string) (env : Env)
    : Outcome (option (StockData F)) * Env :=
  match tryProviders 0 (financialProviders self) sym env with
  | (Some value, env) => (Return value, env)
  | (None, env) =>
      let '(value, env) :=
        MarketDataProvider.getStockData (mockProvider self) sym env in
      (Return (Some value), env)
  end.

(** The body of the [for symbol in symbols] loop of [getAllStocks]. *)
Definition realOrMock (self : t F) (realData : gmap string (StockData F))
    (sym : string) (env : Env) : StockData F * Env :=
  match realData !! sym with
  | Some value => (value, env)
  | None => MarketDataProvider.getStockData (mockProvider self) sym env
  end.

Definition getAllStocks (self : t F) (env : Env)
    : Outcome (list (StockData F)) * Env :=
  let symbols := MarketDataProvider.topStocks (mockProvider self) in
  let fallback env :=
    let '(results, env) :=
      MarketDataProvider.getAllStocks (mockProvider self) env in
    (Return results, env) in
  match financialProviders self with
  | provider :: _ =>
      let env := log (BatchCall 0 symbols) env in
      match getMultipleStocks provider symbols with
      | Return realData =>
          let '(results, env) :=
            MarketDataProvider.for_each (realOrMock self realData)
              symbols env in
          (Return results, env)
      | Raise _ => fallback env
      end
  | [] => fallback env
  end.
End chain.

End EnhancedMarketDataProvider.

(** ** Vocabulary of the statements about the store *)

Section store_vocabulary.
Import CacheMixin.
Context {V : Type}.

(** What is left of an entry once the entries expired at [now] are gone. *)
Definition survives (now : Z) (o : option (Entry V)) : option (Entry V) :=
  match o with
  | Some e => if decide (expires_at e < now) then None else Some e
  | None => None
  end.

(** The invariant of the data model: no entry expires before it was
    created. *)
Definition stampsOrdered (c : gmap string (Entry V)) : Prop :=
  ∀ k e, c !! k = Some e → created_at e ≤ expires_at e.

(** The test [_cachedCall] starts with: the key has an entry that is not
    expired at the clock reading of the test.  Such an entry is served
    and no fetch is made. *)
Definition hasFreshEntry (clock : nat → Z) (w : State V) (cacheKey : string)
    : bool :=
  match _cache w !! cacheKey with
  | Some entry => bool_decide (clock (reads w) ≤ expires_at entry)
  | None => false
  end.
End store_vocabulary.

(** ** Vocabulary of the statements about the chain *)

Section chain_vocabulary.
Context {F : Type}.

(** The provider has nothing for the symbol: it returns [None] or raises. *)
Definition yieldsNothing (provider : IFinancialProvider F) (sym : string)
    : Prop :=
  ∀ value, getStockPrice provider sym ≠ Return (Some value).

(** The log of asking the [n] providers of index [i], [i+1], ... in turn. *)
Definition priceCalls (i n : nat) (sym : string) : list Call :=
  (λ j, PriceCall j sym) <$> seq i n.

(** What the batch call of the first provider has for the symbol: nothing
    if there is no provider, if the call raised, or if the returned dict
    lacks the symbol. *)
Definition batchValue (self : EnhancedMarketDataProvider.t F) (sym : string)
    : option (StockData F) :=
  match EnhancedMarketDataProvider.financialProviders self with
  | provider :: _ =>
      match getMultipleStocks provider
              (MarketDataProvider.topStocks
                 (EnhancedMarketDataProvider.mockProvider self)) with
      | Return realData => realData !! sym
      | Raise _ => None
      end
  | [] => None
  end.
End chain_vocabulary.

(** ** Concrete scenarios *)

Module Scenario.
Import CacheMixin.

(** A clock that advances by one unit at every reading. *)
Definition ticking (n : nat) : Z := Z.of_nat n.

Definition fetchQuote : list string → list (string * string) → nat
    → Outcome (option Z) :=
  λ _ _ _, Return (Some 100).

Definition fetchNothing : list string → list (string * string) → nat
    → Outcome (option Z) :=
  λ _ _ _, Return None.

Definition error429 : PyException := mkExc "Exception" "429 rate limit".

Definition fetch429 : list string → list (string * string) → nat
    → Outcome (option Z) :=
  λ _ _ _, Raise error429.

Definition errorHard : PyException :=
  mkExc "ValueError" "Not a rate limit error".

Definition fetchHard : list string → list (string * string) → nat
    → Outcome (option Z) :=
  λ _ _ _, Raise errorHard.

(** The quote of AAPL, cached at time 0 for 5 units. *)
Definition quoteEntry : Entry Z := mkEntry (Some 100) 5 0.

(** The same for MSFT, under its own key. *)
Definition otherEntry : Entry Z := mkEntry (Some 415) 5 0.

(** Three readings later the entry is still fresh. *)
Definition freshState : State Z :=
  mkState {["getStockPrice|AAPL" := quoteEntry]} 300 3 1.

(** Six readings later it is stale. *)
Definition staleState : State Z :=
  mkState {["getStockPrice|AAPL" := quoteEntry]} 300 6 1.

(** Only the quote of MSFT is cached, and it is stale. *)
Definition otherStaleState : State Z :=
  mkState {["getStockPrice|MSFT" := otherEntry]} 300 6 1.

(** Integers stand in for floats; the [n]-th draw is [n]. *)
#[export] Instance intOps : MockOps Z := {|
  f100 := 100;
  fadd := Z.add;
  fmul := Z.mul;
  fdiv := Z.div;
  uniform := Z.of_nat;
  _generateExplanation := λ sym _, sym +:+ " stock";
|}.

Definition mock : MarketDataProvider.t Z :=
  MarketDataProvider.mk ["AAPL"; "MSFT"] {["AAPL" := 225; "MSFT" := 415]}.

Definition realQuote : StockData Z := mkStock "AAPL" 100 1 1 "Real data".

Definition boom : PyException := mkExc "RuntimeError" "must not be called".

(** Returns nothing for a single symbol, and a dict with AAPL only for a
    batch. *)
Definition emptyProvider : IFinancialProvider Z :=
  mkProvider (λ _, Return None) (λ _, Return {["AAPL" := realQuote]}).

Definition goodProvider : IFinancialProvider Z :=
  mkProvider (λ _, Return (Some realQuote))
    (λ _, Return {["AAPL" := realQuote]}).

Definition failingProvider : IFinancialProvider Z :=
  mkProvider (λ _, Raise boom) (λ _, Raise boom).

Definition chain3 : EnhancedMarketDataProvider.t Z :=
  EnhancedMarketDataProvider.mk mock
    [emptyProvider; goodProvider; failingProvider].

Definition chainDry : EnhancedMarketDataProvider.t Z :=
  EnhancedMarketDataProvider.mk mock [emptyProvider; failingProvider].

Definition chainPartial : EnhancedMarketDataProvider.t Z :=
  EnhancedMarketDataProvider.mk mock [emptyProvider].

Definition chainFailing : EnhancedMarketDataProvider.t Z :=
  EnhancedMarketDataProvider.mk mock [failingProvider; goodProvider].

Definition env0 : Env := mkEnv 0 [].

End Scenario.

(** ** Vocabulary of the further statements about the cache *)

(** The texts the [except] branch of [_cachedCall] looks for. *)
Definition rateLimitPatterns : list string :=
  ["429"; "rate limit exceeded"; "too many requests"; "rate limited"].

(** ** Further concrete scenarios *)

Module Scenario2.
Import CacheMixin Scenario.

(** The first fetch returns the quote; every later one is rate limited. *)
Definition fetchOnceThen429 : list string → list (string * string) → nat
    → Outcome (option Z) :=
  λ _ _ n, match n with
           | O => Return (Some 100)
           | S _ => Raise error429
           end.

End Scenario2.

(** ** providers/scraping_provider.py *)

Module ScrapingFinancialProvider.
Import CacheMixin.

(** What [self.session.get(url, timeout=10)] does: it raises, or it
    returns a response with a status code and a text. *)
Inductive HttpResult : Type :=
  | HttpRaise (e : PyException)
  | HttpResponse (status_code : Z) (text : string).

Section scraping.
Context {F : Type}.
(** [clock] is the clock of the mixin; [session_get url n] is what the
    request for [url] does when [n] fetches were made before; [scrape]
    stands for the three regular expressions and the conversions to
    float: [Return None] when a pattern does not match, the three numbers
    when all do, and an exception when [float] rejects a match. *)
Context (clock : nat → Z) (session_get : string → nat → HttpResult)
  (scrape : string → Outcome (option (F * F * F))).

(** [__init__]: the mixin with a time-to-live of three minutes. *)
Definition init : State (StockData F) := mkState ∅ 180 0 0.

(** The [try] block of [_fetchStockPrice]. *)
Definition tryBlock (sym : string) (n : nat) : Outcome (option (StockData F)) :=
  let url := "https://finance.yahoo.com/quote/" +:+ sym in
  match session_get url n with
  | HttpRaise e => Raise e
  | HttpResponse status_code html =>
      if decide (status_code = 429) then
        Raise (mkExc "Exception" "Rate limit 429")
      else if decide (status_code ≠ 200) then Return None
      else
        match scrape html with
        | Raise e => Raise e
        | Return None => Return None
        | Return (Some (price, change, changePercent)) =>
            Return (Some (mkStock sym price change changePercent
                            "Real-time scraped from Yahoo Finance"))
        end
  end.

(** The test of the [except] branch of [_fetchStockPrice]. *)
Definition letThrough (e : PyException) : bool :=
  PyStr.contains "429" (exc_str e)
  || PyStr.contains "rate limit" (PyStr.lower (exc_str e)).

Definition _fetchStockPrice (sym : string) (n : nat)
    : Outcome (option (StockData F)) :=
  match tryBlock sym n with
  | Return result => Return result
  | Raise e => if letThrough e then Raise e else Return None
  end.

(** [self._fetchStockPrice] as [_cachedCall] applies it: to the one
    positional argument it was given.  The method makes its request and
    does not touch the cache. *)
Definition boundMethod (method : string → nat → Outcome (option (StockData F)))
    : list string → list (string * string) → State (StockData F)
      → Outcome (option (StockData F)) * State (StockData F) :=
  λ args kwargs w,
    match args, kwargs with
    | [sym], [] => (method sym (fetches w), w)
    | _, _ =>
        (Raise (mkExc "TypeError" "_fetchStockPrice() takes 2 positional arguments"), w)
    end.

Definition getStockPrice (sym : string) (w : State (StockData F))
    : Outcome (option (StockData F)) * State (StockData F) :=
  _cachedCall clock id "getStockPrice" (boundMethod _fetchStockPrice)
    [sym] None [] w.

(** The loop of [getMultipleStocks] over the symbols it is given, with
    the dict [results] built so far.  A named tuple of five fields is
    true, so [if data:] tests for [None]. *)
Fixpoint collect (symbols : list string) (results : gmap string (StockData F))
    (w : State (StockData F))
    : Outcome (gmap string (StockData F)) * State (StockData F) :=
  match symbols with
  | [] => (Return results, w)
  | sym :: rest =>
      match getStockPrice sym w with
      | (Return (Some value), w) => collect rest (<[sym := value]> results) w
      | (Return None, w) => collect rest results w
      | (Raise e, w) => (Raise e, w)
      end
  end.

Definition getMultipleStocks (symbols : list string) (w : State (StockData F))
    : Outcome (gmap string (StockData F)) * State (StockData F) :=
  collect (take 5 symbols) ∅ w.

(** The provider as the chain sees it during one query that finds it in
    state [w]. *)
Definition asProvider (w : State (StockData F)) : IFinancialProvider F :=
  mkProvider (λ sym, (getStockPrice sym w).1)
    (λ symbols, (getMultipleStocks symbols w).1).
End scraping.

End ScrapingFinancialProvider.

(** ** Concrete scenarios of the scraping provider *)

Module ScrapingScenario.
Import CacheMixin Scenario ScrapingFinancialProvider.

Definition site429 : string → nat → HttpResult :=
  λ _ _, HttpResponse 429 "Too Many Requests".

Definition connectionError : PyException :=
  mkExc "ConnectionError" "Connection refused".

Definition siteDown : string → nat → HttpResult :=
  λ _ _, HttpRaise connectionError.

Definition vagueError : PyException := mkExc "Exception" "Rate limit reached".

Definition siteVague : string → nat → HttpResult :=
  λ _ _, HttpRaise vagueError.

Definition siteUp : string → nat → HttpResult :=
  λ _ _, HttpResponse 200 "<html>".

Definition scrapeOk : string → Outcome (option (Z * Z * Z)) :=
  λ _, Return (Some (100, 1, 1)).

(** The quote of AAPL, cached at time 0 for 5 units and stale by now. *)
Definition staleQuoteState : State (StockData Z) :=
  mkState {["getStockPrice|AAPL" := mkEntry (Some realQuote) 5 0]} 180 6 1.

Definition sixSymbols : list string := ["S1"; "S2"; "S3"; "S4"; "S5"; "S6"].

Definition mockSix : MarketDataProvider.t Z :=
  MarketDataProvider.mk sixSymbols ∅.

Definition chainScraping : EnhancedMarketDataProvider.t Z :=
  EnhancedMarketDataProvider.mk mockSix
    [asProvider ticking siteUp scrapeOk init].

End ScrapingScenario.

(** ** enhanced_market_data.py: registration of providers *)

Module Registration.

(** A provider object as [addFinancialProvider] sees it: the answer of its
    [isAvailable()] and its query methods. *)
Record Registrant (F : Type) := mkRegistrant {
  isAvailable : bool;
  provider : IFinancialProvider F;
}.
Arguments mkRegistrant {F} _ _.
Arguments isAvailable {F} _.
Arguments provider {F} _.

Section registration.
Context {F : Type}.

(** [__init__] with [useRealData=False]: the mock provider and no other. *)
Definition mockOnly (mock : MarketDataProvider.t F)
    : EnhancedMarketDataProvider.t F :=
  EnhancedMarketDataProvider.mk mock [].

Definition addFinancialProvider (self : EnhancedMarketDataProvider.t F)
    (candidate : Registrant F) : EnhancedMarketDataProvider.t F :=
  if isAvailable candidate then
    EnhancedMarketDataProvider.mk
      (EnhancedMarketDataProvider.mockProvider self)
      (EnhancedMarketDataProvider.financialProviders self
       ++ [provider candidate])
  else self.
End registration.

End Registration.

(** ** market_detector.py *)

Module MarketDetector.

(** One value of [self.countryData]. *)
Record Market := mkMarket {
  indexes : list string;
  topStocks : list string;
  currency : string;
}.

(** [self.countryData], as [__init__] fills it. *)
Definition countryData : gmap string Market :=
  {[ "US" := mkMarket ["S&P 500"; "NASDAQ"; "DOW"]
               ["AAPL"; "MSFT"; "GOOGL"; "AMZN"; "NVDA"; "TSLA"; "META";
                "AVGO"; "AMD"; "CRM"] "USD";
     "CA" := mkMarket ["TSX"; "TSX Venture"]
               ["SHOP.TO"; "CNR.TO"; "RY.TO"; "TD.TO"; "BNS.TO"; "BMO.TO";
                "ENB.TO"; "TRI.TO"; "WCN.TO"; "CP.TO"] "CAD";
     "GB" := mkMarket ["FTSE 100"; "FTSE 250"]
               ["SHEL.L"; "AZN.L"; "LSEG.L"; "UU.L"; "ULVR.L"; "RDSA.L";
                "VOD.L"; "BP.L"; "HSBA.L"; "GSK.L"] "GBP";
     "DE" := mkMarket ["DAX"; "MDAX"]
               ["SAP.DE"; "ASML.AS"; "NVDA"; "TSLA"; "META"; "GOOGL"; "AAPL";
                "MSFT"; "AMZN"; "AMD"] "EUR";
     "JP" := mkMarket ["Nikkei 225"; "TOPIX"]
               ["7203.T"; "6758.T"; "9984.T"; "6861.T"; "8306.T"; "9432.T";
                "4063.T"; "6098.T"; "7974.T"; "8035.T"] "JPY";
     "IN" := mkMarket ["SENSEX"; "NIFTY 50"]
               ["RELIANCE.NS"; "TCS.NS"; "HDFCBANK.NS"; "INFY.NS";
                "HINDUNILVR.NS"; "ICICIBANK.NS"; "SBIN.NS"; "BHARTIARTL.NS";
                "ITC.NS"; "KOTAKBANK.NS"] "INR" ]}.

(** What the request to the geolocation service does: it raises, or it
    returns a response with a status code whose [json()] raises or gives
    a dict; of the dict only the entry ["countryCode"] matters, [None]
    when it is missing. *)
Inductive GeoResult : Type :=
  | GeoRaise (e : PyException)
  | GeoResponse (status_code : Z) (json : Outcome (option string)).

Definition detectCountry (geo : GeoResult) : string :=
  match geo with
  | GeoResponse status_code (Return entry) =>
      if decide (status_code = 200) then
        let countryCode := default "US" entry in
        if decide (is_Some (countryData !! countryCode)) then countryCode
        else "US"
      else "US"
  | GeoResponse _ (Raise _) => "US"
  | GeoRaise _ => "US"
  end.

(** The dict [getMarketInfo] returns. *)
Record MarketInfo := mkMarketInfo {
  info_country : string;
  info_indexes : list string;
  info_topStocks : list string;
  info_currency : string;
  info_fallback : bool;
}.

(** [not countryCode] for an [Optional[str]]: [None] and the empty string
    are false. *)
Definition given (countryCode : option string) : option string :=
  match countryCode with
  | Some "" => None
  | other => other
  end.

(** [self.countryData["US"]]; the key is there. *)
Definition usMarket : Market := default (mkMarket [] [] "") (countryData !! "US").

Definition getMarketInfo (geo : GeoResult) (countryCode : option string)
    : MarketInfo :=
  let countryCode :=
    match given countryCode with
    | Some code => code
    | None => detectCountry geo
    end in
  match countryData !! countryCode with
  | None =>
      let marketInfo := usMarket in
      mkMarketInfo countryCode ["Global Markets"] (topStocks marketInfo) "USD"
        true
  | Some marketInfo =>
      mkMarketInfo countryCode (indexes marketInfo) (topStocks marketInfo)
        (currency marketInfo) false
  end.

Definition getTopStocks (geo : GeoResult) (countryCode : option string)
    : list string :=
  info_topStocks (getMarketInfo geo countryCode).

End MarketDetector.

(** ** providers/realistic_news.py and the news side of the chain *)

Module News.

(** [NewsItem], a named tuple of three fields; [impact] maps a symbol to
    ["up"] or ["down"]. *)
Record NewsItem := mkNews {
  headline : string;
  explanation : string;
  impact : gmap string string;
}.

(** [INewsProvider]: what [getMarketNews] yields during one query. *)
Record INewsProvider := mkNewsProvider {
  getMarketNews : string → list string → Outcome (list NewsItem);
}.

End News.

Module RealisticNewsProvider.
Import News.

(** The list [news] of [_getRealisticNews]. *)
Definition news : list NewsItem :=
  [ mkNews "AI chip demand drives semiconductor rally"
      "Artificial intelligence boom continues to fuel demand for advanced processors"
      {[ "NVDA" := "up"; "AMD" := "up" ]};
    mkNews "Federal Reserve signals potential rate adjustments"
      "Central bank maintains cautious stance on monetary policy amid economic data"
      {[ "AAPL" := "down"; "MSFT" := "down" ]};
    mkNews "Tech earnings season shows mixed results"
      "Major technology companies report varied quarterly performance"
      {[ "GOOGL" := "up"; "META" := "down" ]};
    mkNews "Electric vehicle market competition intensifies"
      "Traditional automakers challenge Tesla's market dominance"
      {[ "TSLA" := "down"; "F" := "up" ]};
    mkNews "Cloud computing growth accelerates"
      "Enterprise digital transformation drives cloud service adoption"
      {[ "MSFT" := "up"; "AMZN" := "up"; "GOOGL" := "up" ]};
    mkNews "Inflation concerns weigh on consumer stocks"
      "Rising costs impact retail and consumer discretionary sectors"
      {[ "WMT" := "down"; "TGT" := "down" ]};
    mkNews "Energy sector rebounds on supply concerns"
      "Geopolitical tensions and supply chain issues boost oil prices"
      {[ "XOM" := "up"; "CVX" := "up" ]};
    mkNews "Banking sector faces regulatory scrutiny"
      "New financial regulations could impact major bank operations"
      {[ "JPM" := "down"; "BAC" := "down" ]} ].

(** [any(symbol in item.impact for symbol in symbols) or not item.impact]. *)
Definition isRelevant (symbols : list string) (item : NewsItem) : bool :=
  existsb (λ sym, bool_decide (is_Some (impact item !! sym))) symbols
  || bool_decide (impact item = ∅).

Section realistic.
(** [self.currentMonth] and the text of [self.currentYear]. *)
Context (currentMonth currentYear : string).

(** The list [generalNews]. *)
Definition generalNews (symbols : list string) : list NewsItem :=
  [ mkNews (currentMonth +:+ " " +:+ currentYear
            +:+ " market outlook remains cautious")
      "Investors weigh economic indicators and corporate earnings"
      (match symbols !! 0%nat with
       | Some sym => {[ sym := "up" ]}
       | None => ∅
       end);
    mkNews "Global supply chain disruptions continue"
      "International trade challenges affect multiple sectors"
      (match symbols !! 1%nat with
       | Some sym => {[ sym := "down" ]}
       | None => ∅
       end);
    mkNews "Cryptocurrency market volatility impacts tech stocks"
      "Digital asset fluctuations create ripple effects in technology sector"
      (match symbols !! 2%nat with
       | Some sym => {[ sym := "up" ]}
       | None => ∅
       end) ].

Definition _getRealisticNews (countryCode : string) (symbols : list string)
    : list NewsItem :=
  let relevantNews := filter (λ item, isRelevant symbols item = true) news in
  if decide (length relevantNews < 3)%nat then
    relevantNews ++ generalNews symbols
  else relevantNews.

(** [sample population k n] is what the [n]-th call of [random.sample]
    returns for a population and a count. *)
Context (sample : list NewsItem → nat → nat → list NewsItem).

Definition getMarketNews (countryCode : string) (symbols : list string)
    (n : nat) : list NewsItem :=
  let newsTemplates := _getRealisticNews countryCode symbols in
  sample newsTemplates (min 3 (length newsTemplates)) n.

(** The provider as the chain sees it during a query that makes the
    [n]-th call of [random.sample]. *)
Definition asProvider (n : nat) : INewsProvider :=
  mkNewsProvider (λ countryCode symbols,
    Return (getMarketNews countryCode symbols n)).
End realistic.

End RealisticNewsProvider.

Module NewsChain.
Import News.

(** The part of [EnhancedMarketDataProvider] that [getMarketNews] uses;
    [mockNews] is what [getMarketNews] of the mock provider returns. *)
Record t := mk {
  countryCode : string;
  topStocks : list string;
  newsProviders : list INewsProvider;
  mockNews : list NewsItem;
}.

(** [if news:] on a list: the empty list is false. *)
Definition truthy (news : list NewsItem) : bool :=
  match news with
  | [] => false
  | _ :: _ => true
  end.

(** The [for provider in self.newsProviders] loop; [None] means that the
    loop ran off the end of the list. *)
Fixpoint tryProviders (providers : list INewsProvider) (country : string)
    (symbols : list string) : option (list NewsItem) :=
  match providers with
  | [] => None
  | provider :: rest =>
      match getMarketNews provider country symbols with
      | Return news =>
          if truthy news then Some news else tryProviders rest country symbols
      | Raise _ => tryProviders rest country symbols
      end
  end.

Definition getMarketNews (self : t) : list NewsItem :=
  match tryProviders (newsProviders self) (countryCode self) (topStocks self) with
  | Some news => news
  | None => mockNews self
  end.

End NewsChain.

(** ** Vocabulary of the statements about news *)

(** The provider has no news: it returns the empty list or raises. *)
Definition yieldsNoNews (provider : News.INewsProvider) (country : string)
    (symbols : list string) : Prop :=
  ∀ item news,
    News.getMarketNews provider country symbols ≠ Return (item :: news).

(** What the code relies on when it calls [random.sample]: asked for no
    more items than the population has, it returns that many. *)
Definition sampleContract
    (sample : list News.NewsItem → nat → nat → list News.NewsItem) : Prop :=
  ∀ population k n,
    (k ≤ length population)%nat → length (sample population k n) = k.

Module NewsScenario.
Import News.

(** A sample that takes the first items. *)
Definition firstItems : list NewsItem → nat → nat → list NewsItem :=
  λ population k _, take k population.

Definition mockItem : NewsItem := mkNews "Mock headline" "Mock explanation" ∅.

Definition silentProvider : INewsProvider := mkNewsProvider (λ _ _, Return []).

Definition brokenProvider : INewsProvider :=
  mkNewsProvider (λ _ _, Raise (mkExc "RuntimeError" "must not be called")).

Definition chainRealistic : NewsChain.t :=
  NewsChain.mk "US" ["AAPL"; "MSFT"]
    [RealisticNewsProvider.asProvider "May" "2025" firstItems 0; brokenProvider]
    [mockItem].

Definition chainSilent : NewsChain.t :=
  NewsChain.mk "US" ["AAPL"; "MSFT"] [silentProvider; brokenProvider] [mockItem].

End NewsScenario.

(** ** watch.py: the cells of the stocks table *)

Module MarketWatch.
Import News.

Section cells.
(** A Python string is a sequence of code points; [dot] and [space] are
    the characters ["."] and [" "]. *)
Context {Char : Type} (dot space : Char).

(** [s.ljust(width)]. *)
Definition ljust (width : nat) (s : list Char) : list Char :=
  s ++ replicate (width - length s) space.

(** The explanation cell of [_createStocksTable]. *)
Definition explanationCell (explanation : list Char) : list Char :=
  let explanation :=
    if decide (40 < length explanation)%nat then
      take 37 explanation ++ [dot; dot; dot]
    else explanation in
  ljust 40 explanation.
End cells.

(** The comparisons of floats [_getTradingAdvice] makes: [flt a b] is
    [a < b], and the five constants are its literals. *)
Class AdviceOps (F : Type) := {
  flt : F → F → bool;
  fabs : F → F;
  lit_minus_2 : F;
  lit_2 : F;
  lit_3 : F;
  lit_1_5 : F;
  lit_1 : F;
}.

Section advice.
Context {F : Type} `{!AdviceOps F}.

(** The loop over [news] with its [break]. *)
Fixpoint newsImpact (sym : string) (news : list NewsItem) : string :=
  match news with
  | [] => "neutral"
  | item :: rest =>
      match impact item !! sym with
      | Some direction =>
          if decide (direction = "up") then "positive" else "negative"
      | None => newsImpact sym rest
      end
  end.

Definition _getTradingAdvice (stock : StockData F) (news : list NewsItem)
    : string * string :=
  let changePct := fabs (changePercent stock) in
  let newsImpact := newsImpact (symbol stock) news in
  if flt (changePercent stock) lit_minus_2 && flt lit_2 changePct then
    if decide (newsImpact = "positive") then
      ("🟢 BUY ", "Bad news temporary, good company")
    else ("🟢 BUY ", "Good discount price")
  else if flt lit_3 (changePercent stock) then
    ("🔴 SELL", "Take profits while high")
  else if flt lit_1_5 (changePercent stock) then
    if decide (newsImpact = "positive") then
      ("🟡 HOLD", "Riding positive news")
    else ("🟡 HOLD", "Steady upward trend")
  else if flt changePct lit_1 then ("🔵 WAIT", "Normal trading range")
  else ("🔵 WAIT", "Minor movement").
End advice.

End MarketWatch.

(** ** providers/marketwatch_provider.py *)

Module MarketWatchProvider.

(** The provider: its dict [self.cache] and the number of requests made
    so far. *)
Record State (F : Type) := mkState {
  cache : gmap string (StockData F);
  requests : nat;
}.
Arguments mkState {F} _ _.
Arguments cache {F} _.
Arguments requests {F} _.

Section marketwatch.
Context {F : Type}.
(** [session_get url n] is what the request does when [n] requests were
    made before; [scrape] stands for the three regular expressions and
    the conversions to float, as for the scraping provider. *)
Context (session_get : string → nat → ScrapingFinancialProvider.HttpResult)
  (scrape : string → Outcome (option (F * F * F))).

(** The [try] block of [getStockPrice]: the quote it builds, if any. *)
Definition tryBlock (sym : string) (n : nat) : Outcome (option (StockData F)) :=
  let url :=
    "https://www.marketwatch.com/investing/stock/" +:+ PyStr.lower sym in
  match session_get url n with
  | ScrapingFinancialProvider.HttpRaise e => Raise e
  | ScrapingFinancialProvider.HttpResponse status_code html =>
      if decide (status_code ≠ 200) then Return None
      else
        match scrape html with
        | Raise e => Raise e
        | Return None => Return None
        | Return (Some (price, change, changePercent)) =>
            Return (Some (mkStock sym price change changePercent
                            "Real-time scraped from MarketWatch"))
        end
  end.

Definition getStockPrice (sym : string) (st : State F)
    : option (StockData F) * State F :=
  match cache st !! sym with
  | Some stockData => (Some stockData, st)
  | None =>
      match tryBlock sym (requests st) with
      | Return (Some stockData) =>
          (Some stockData,
           mkState (<[sym := stockData]> (cache st)) (S (requests st)))
      | Return None => (None, mkState (cache st) (S (requests st)))
      | Raise _ => (None, mkState (cache st) (S (requests st)))
      end
  end.
End marketwatch.

End MarketWatchProvider.

(** ** providers/yahoo_provider.py *)

Module YahooFinanceProvider.
Import CacheMixin.

(** What the cached calls of the provider return and its cache holds: a
    [StockData], or a dict from symbols to such values. *)
#[warnings="-register-all"]
Inductive PyVal (F : Type) : Type :=
  | VQuote (quote : StockData F)
  | VDict (items : gmap string (PyVal F)).
Arguments VQuote {F} _.
Arguments VDict {F} _.

(** The positional argument of a cached call: a symbol, or the tuple
    [tuple(symbols)]. *)
Inductive PyArg : Type :=
  | ArgStr (s : string)
  | ArgTuple (items : list string).

(** [repr] of a string with no quote, backslash or control character in
    it, as stock symbols are. *)
Definition repr (s : string) : string := "'" +:+ s +:+ "'".

(** [str] of an argument, as [_getCacheKey] applies it. *)
Definition str (arg : PyArg) : string :=
  match arg with
  | ArgStr s => s
  | ArgTuple [item] => "(" +:+ repr item +:+ ",)"
  | ArgTuple items => "(" +:+ PyStr.join ", " (repr <$> items) +:+ ")"
  end.

Definition baseUrl : string :=
  "https://query1.finance.yahoo.com/v8/finance/chart".

Section yahoo.
Context {F : Type}.
(** [clock] is the clock of the mixin; [requests_get url n] is what the
    request for [url] does when [n] fetches were completed before.
    [quoteOf] stands for lines 44-57 and the conversions to float on the
    body of a response: [Return None] when the chart has no result, the
    three numbers of the quote, or the exception this raises.  [chartOf]
    stands for lines 101-125: the symbols and numbers of the chart
    results the loop went through, those with an empty symbol left out,
    and the exception that ended it, if one did. *)
Context (clock : nat → Z)
  (requests_get : string → nat → ScrapingFinancialProvider.HttpResult)
  (quoteOf : string → Outcome (option (F * F * F)))
  (chartOf : string → list (string * (F * F * F)) * option PyException).

(** [__init__]: the mixin with a time-to-live of three minutes. *)
Definition init : State (PyVal F) := mkState ∅ 180 0 0.

(** The test of both [except] branches. *)
Definition letThrough (e : PyException) : bool :=
  PyStr.contains "429" (exc_str e)
  || PyStr.contains "rate limit" (PyStr.lower (exc_str e)).

Definition quoted (sym : string) (numbers : F * F * F) : StockData F :=
  let '(price, change, changePercent) := numbers in
  mkStock sym price change changePercent "Real-time data from Yahoo Finance".

Definition _fetchStockPrice (sym : string) (n : nat)
    : Outcome (option (PyVal F)) :=
  let attempt :=
    match requests_get (baseUrl +:+ "/" +:+ sym) n with
    | ScrapingFinancialProvider.HttpRaise e => Raise e
    | ScrapingFinancialProvider.HttpResponse status_code body =>
        if decide (status_code = 429) then
          Raise (mkExc "Exception" "Rate limit 429")
        else if decide (status_code ≠ 200) then Return None
        else
          match quoteOf body with
          | Raise e => Raise e
          | Return None => Return None
          | Return (Some numbers) =>
              Return (Some (VQuote (quoted sym numbers)))
          end
    end in
  match attempt with
  | Return result => Return result
  | Raise e => if letThrough e then Raise e else Return None
  end.

(** [self._fetchStockPrice] as [getStockPrice] has [_cachedCall] apply
    it: to one symbol.  It makes its request and does not touch the
    cache.  The provider passes no other arguments. *)
Definition priceMethod
    : list PyArg → list (string * PyArg) → State (PyVal F)
      → Outcome (option (PyVal F)) * State (PyVal F) :=
  λ args kwargs w,
    match args, kwargs with
    | [ArgStr sym], [] => (_fetchStockPrice sym (fetches w), w)
    | _, _ => (Raise (mkExc "TypeError" "_fetchStockPrice(symbol: str)"), w)
    end.

Definition getStockPrice (sym : string) (w : State (PyVal F))
    : Outcome (option (PyVal F)) * State (PyVal F) :=
  _cachedCall clock str "getStockPrice" priceMethod [ArgStr sym] None [] w.

(** [if data:]: [None] and the empty dict are false. *)
Definition truthy (value : PyVal F) : bool :=
  match value with
  | VQuote _ => true
  | VDict items =>
      match map_to_list items with
      | [] => false
      | _ :: _ => true
      end
  end.

(** [if data: results[symbol] = data]. *)
Definition keep (sym : string) (data : option (PyVal F))
    (results : gmap string (PyVal F)) : gmap string (PyVal F) :=
  match data with
  | Some value => if truthy value then <[sym := value]> results else results
  | None => results
  end.

(** Lines 95-98: the individual calls made when the batch request was
    answered with another status than 200 and 429.  No call has a handler
    of its own: an exception ends the loop, with the state the calls left
    and the dict filled so far. *)
Fixpoint individually (symbols : list string) (results : gmap string (PyVal F))
    (w : State (PyVal F))
    : option PyException * gmap string (PyVal F) * State (PyVal F) :=
  match symbols with
  | [] => (None, results, w)
  | sym :: rest =>
      match getStockPrice sym w with
      | (Return data, w) => individually rest (keep sym data results) w
      | (Raise e, w) => (Some e, results, w)
      end
  end.

(** Lines 133-139: the individual calls of the [except] branch, each in
    a [try] of its own. *)
Fixpoint individuallyGuarded (symbols : list string)
    (results : gmap string (PyVal F)) (w : State (PyVal F))
    : gmap string (PyVal F) * State (PyVal F) :=
  match symbols with
  | [] => (results, w)
  | sym :: rest =>
      match getStockPrice sym w with
      | (Return data, w) => individuallyGuarded rest (keep sym data results) w
      | (Raise _, w) => individuallyGuarded rest results w
      end
  end.

(** The [try] block runs to an exception or to [return results]; then
    the [except] branch re-raises or falls back on individual calls.  The
    individual calls are cached calls on the cache of the very provider:
    the state is threaded through them. *)
Definition _fetchMultipleStocks (symbols : list string) (w : State (PyVal F))
    : Outcome (option (PyVal F)) * State (PyVal F) :=
  let symbolsList := symbols in
  let url := baseUrl +:+ "/" +:+ PyStr.join "," symbolsList in
  let '(raised, results, w) :=
    match requests_get url (fetches w) with
    | ScrapingFinancialProvider.HttpRaise e => (Some e, ∅, w)
    | ScrapingFinancialProvider.HttpResponse status_code body =>
        if decide (status_code = 429) then
          (Some (mkExc "Exception" "Rate limit 429"), ∅, w)
        else if decide (status_code ≠ 200) then individually symbolsList ∅ w
        else
          let '(quotes, failure) := chartOf body in
          (failure,
           foldl (λ results item,
                    <[item.1 := VQuote (quoted item.1 item.2)]> results)
             ∅ quotes,
           w)
    end in
  match raised with
  | None => (Return (Some (VDict results)), w)
  | Some e =>
      if letThrough e then (Raise e, w)
      else
        let '(results, w) := individuallyGuarded symbolsList results w in
        (Return (Some (VDict results)), w)
  end.

(** [self._fetchMultipleStocks] as [getMultipleStocks] has [_cachedCall]
    apply it: to one tuple of symbols. *)
Definition batchMethod
    : list PyArg → list (string * PyArg) → State (PyVal F)
      → Outcome (option (PyVal F)) * State (PyVal F) :=
  λ args kwargs w,
    match args, kwargs with
    | [ArgTuple symbols], [] => _fetchMultipleStocks symbols w
    | _, _ =>
        (Raise (mkExc "TypeError" "_fetchMultipleStocks(symbols: tuple)"), w)
    end.

Definition getMultipleStocks (symbols : list string) (w : State (PyVal F))
    : Outcome (option (PyVal F)) * State (PyVal F) :=
  _cachedCall clock str "getMultipleStocks" batchMethod [ArgTuple symbols]
    None [] w.
End yahoo.

End YahooFinanceProvider.

(** ** A concrete scenario of the Yahoo provider *)

Module YahooScenario.
Import CacheMixin.

Definition reached : PyException := mkExc "Exception" "Rate limit reached".

(** The batch request for AAPL and MSFT is answered with status 500, the
    request for AAPL with a quote, and every other request fails with
    [reached]. *)
Definition batchDown : string → nat → ScrapingFinancialProvider.HttpResult :=
  λ url _,
    if decide (url = YahooFinanceProvider.baseUrl +:+ "/AAPL,MSFT") then
      ScrapingFinancialProvider.HttpResponse 500 "Internal Server Error"
    else if decide (url = YahooFinanceProvider.baseUrl +:+ "/AAPL") then
      ScrapingFinancialProvider.HttpResponse 200 "{}"
    else ScrapingFinancialProvider.HttpRaise reached.

Definition quoteOf : string → Outcome (option (Z * Z * Z)) :=
  λ _, Return (Some (150, 2, 1)).

Definition chartOf : string → list (string * (Z * Z * Z)) * option PyException :=
  λ _, ([], None).

Definition aaplQuote : YahooFinanceProvider.PyVal Z :=
  YahooFinanceProvider.VQuote
    (mkStock "AAPL" 150 2 1 "Real-time data from Yahoo Finance").

End YahooScenario.

(** * Properties *)

Import CacheMixin.

(** ** Cache keys *)

Section key_properties.
Context {Arg : Type} (str : Arg → string).

#[local] Instance kwarg_le_trans : Transitive (kwarg_le (Arg:=Arg)).
Proof. intros x y z. unfold kwarg_le. apply transitivity. Qed.

#[local] Instance kwarg_le_total : Total (kwarg_le (Arg:=Arg)).
Proof. intros x y. unfold kwarg_le. apply total, _. Qed.

(** In a dict no name occurs twice, so the name determines the item. *)
Lemma kwarg_name_inj (kwargs : list (string * Arg)) x y :
  NoDup kwargs.*1 → x ∈ kwargs → y ∈ kwargs → x.1 = y.1 → x = y.
Proof.
  induction kwargs as [|kv kwargs IH]; intros Hnd Hx Hy Heq.
  - by apply elem_of_nil in Hx.
  - rewrite fmap_cons in Hnd. apply NoDup_cons in Hnd as [Hfresh Hnd].
    apply elem_of_cons in Hx as [->|Hx]; apply elem_of_cons in Hy as [->|Hy].
    + done.
    + exfalso. apply Hfresh. rewrite Heq. by apply list_elem_of_fmap_2.
    + exfalso. apply Hfresh. rewrite <-Heq. by apply list_elem_of_fmap_2.
    + by apply IH.
Qed.

Lemma sorted_permutation (kwargs kwargs' : list (string * Arg)) :
  NoDup kwargs.*1 → kwargs ≡ₚ kwargs' → sorted kwargs = sorted kwargs'.
Proof.
  intros Hnd Hperm. unfold sorted.
  apply (Sorted_unique_strong kwarg_le).
  - intros x y Hx Hy Hxy Hyx.
    rewrite merge_sort_Permutation in Hx.
    rewrite merge_sort_Permutation, <-Hperm in Hy.
    apply (kwarg_name_inj kwargs); [done..|].
    unfold kwarg_le in *. by apply (anti_symm String.le).
  - apply Sorted_merge_sort, _.
  - apply Sorted_merge_sort, _.
  - by rewrite !merge_sort_Permutation.
Qed.

(** C8 (as amended).  The key [_getCacheKey] builds does not depend on
    the order in which the keyword arguments are supplied: two calls
    with the same method name, the same positional arguments and the
    same keyword arguments in any two orders get the same key. *)
Theorem getCacheKey_kwargs_order (methodName : string) (args : list Arg)
    (kwargs kwargs' : list (string * Arg)) :
  NoDup kwargs.*1 → kwargs ≡ₚ kwargs' →
  _getCacheKey str methodName args kwargs
  = _getCacheKey str methodName args kwargs'.
Proof.
  intros Hnd Hperm. unfold _getCacheKey.
  by rewrite (sorted_permutation kwargs kwargs').
Qed.
End key_properties.

Lemma getCacheKey_kwargs_order_witness :
  _getCacheKey id "method" ["x"] [("param1", "value1"); ("param2", "value2")]
  = _getCacheKey id "method" ["x"] [("param2", "value2"); ("param1", "value1")].
Proof.
  apply (getCacheKey_kwargs_order id "method" ["x"]
           [("param1", "value1"); ("param2", "value2")]
           [("param2", "value2"); ("param1", "value1")]).
  - apply (bool_decide_unpack _). vm_compute. exact I.
  - apply perm_swap.
Defined.

(** C8 (as stated) fails for positional arguments: they enter the key in
    call order, so the same two arguments in the other order give another
    key. *)
Lemma getCacheKey_positional_order_matters :
  ["arg1"; "arg2"] ≡ₚ ["arg2"; "arg1"]
  ∧ _getCacheKey id "method" ["arg1"; "arg2"] []
    ≠ _getCacheKey id "method" ["arg2"; "arg1"] [].
Proof. split; [apply perm_swap | vm_compute; discriminate]. Qed.

(** ** The store: eviction and stamping *)

Section store_properties.
Context {V : Type}.
Implicit Types (c : gmap string (Entry V)) (w : State V) (clock : nat → Z).

Lemma lookup_foldl_delete (keys : list string) c k :
  foldl (λ c key, delete key c) c keys !! k
  = if decide (k ∈ keys) then None else c !! k.
Proof.
  revert c. induction keys as [|key keys IH]; intros c; cbn [foldl].
  - rewrite decide_False; [done | apply not_elem_of_nil].
  - rewrite IH, lookup_delete.
    destruct (decide (k ∈ key :: keys)) as [Hin|Hin];
      destruct (decide (k ∈ keys)) as [Hin'|Hin'];
      destruct (decide (key = k)) as [Heq|Hne]; try done.
    all: try (apply elem_of_cons in Hin as [?|?]; congruence).
    all: exfalso; apply Hin; subst;
      first [apply list_elem_of_here | by apply list_elem_of_further].
Qed.

Lemma elem_of_expiredKeys now c k :
  k ∈ expiredKeys now c ↔ ∃ e, c !! k = Some e ∧ now > expires_at e.
Proof.
  unfold expiredKeys. rewrite list_elem_of_fmap. split.
  - intros [[k' e] [-> Hin]].
    apply list_elem_of_filter in Hin as [Hexp Hin].
    apply elem_of_map_to_list in Hin. eauto.
  - intros (e & Hk & Hexp). exists (k, e). split; [done|].
    apply list_elem_of_filter. split; [done|].
    by apply elem_of_map_to_list.
Qed.

Lemma lookup_evictAt now c k : evictAt now c !! k = survives now (c !! k).
Proof.
  unfold evictAt, survives. rewrite lookup_foldl_delete.
  case_decide as Hin.
  - destruct (proj1 (elem_of_expiredKeys _ _ _) Hin) as (e & Hk & Hexp).
    rewrite Hk. case_decide; [done | lia].
  - destruct (c !! k) as [e|] eqn:Hk; [|done].
    case_decide; [|done].
    exfalso. apply Hin, elem_of_expiredKeys. exists e. split; [done | lia].
Qed.

Lemma survives_idemp now (o : option (Entry V)) : survives now (survives now o) = survives now o.
Proof.
  unfold survives. destruct o as [e|]; [|done].
  destruct (decide (expires_at e < now)) as [?|Hn]; [done|].
  simpl. by rewrite decide_False.
Qed.

Lemma evictAt_idemp now c : evictAt now (evictAt now c) = evictAt now c.
Proof. apply map_eq. intros k. by rewrite !lookup_evictAt, survives_idemp. Qed.

Lemma evictAt_subseteq now c : evictAt now c ⊆ c.
Proof.
  apply map_subseteq_spec. intros k e. rewrite lookup_evictAt.
  unfold survives. destruct (c !! k); [|done]. by case_decide.
Qed.

Lemma evictExpired_cache clock w :
  _cache (_evictExpired clock w) = evictAt (clock (reads w)) (_cache w).
Proof. reflexivity. Qed.

Lemma evictExpired_reads clock w :
  reads (_evictExpired clock w) = S (reads w).
Proof. reflexivity. Qed.

(** Two evictions whose clock readings agree do what the first one did. *)
Lemma evictExpired_twice clock w :
  clock (S (reads w)) = clock (reads w) →
  _cache (_evictExpired clock (_evictExpired clock w))
  = _cache (_evictExpired clock w).
Proof.
  intros Hsame. rewrite !evictExpired_cache, evictExpired_reads, Hsame.
  apply evictAt_idemp.
Qed.

(** C7.  [_evictExpired] removes exactly the entries whose [expires_at]
    lies strictly before the time it reads and keeps every other entry as
    it is; run a second time at that same time it changes nothing. *)
Theorem evictExpired_exact_idempotent clock (now : Z) w :
  (∀ k, _cache (_evictExpired clock w) !! k
        = match _cache w !! k with
          | Some e =>
              if decide (expires_at e < clock (reads w)) then None else Some e
          | None => None
          end)
  ∧ _cache (_evictExpired (λ _, now) (_evictExpired (λ _, now) w))
    = _cache (_evictExpired (λ _, now) w).
Proof.
  split.
  - intros k. rewrite evictExpired_cache. apply lookup_evictAt.
  - by apply evictExpired_twice.
Qed.

Lemma setCached_cache clock cacheKey value ttl w :
  _cache (_setCached clock cacheKey value ttl w)
  = <[cacheKey := mkEntry value
                    (clock (reads w) + default (_default_ttl w) ttl)
                    (clock (S (reads w)))]> (_cache w).
Proof. reflexivity. Qed.

Lemma setCached_reads clock cacheKey value ttl w :
  reads (_setCached clock cacheKey value ttl w) = S (S (reads w)).
Proof. reflexivity. Qed.

(** [_setCached] keeps the invariant when the time-to-live covers what
    the clock advanced between its two readings, in particular when both
    readings are the same. *)
Lemma setCached_stampsOrdered clock cacheKey value ttl w :
  clock (S (reads w)) - clock (reads w) ≤ default (_default_ttl w) ttl →
  stampsOrdered (_cache w) →
  stampsOrdered (_cache (_setCached clock cacheKey value ttl w)).
Proof.
  intros Hgap Hinv k e. rewrite setCached_cache, lookup_insert.
  case_decide; [|by apply Hinv].
  intros [= <-]. simpl. lia.
Qed.

Lemma evictExpired_stampsOrdered clock w :
  stampsOrdered (_cache w) → stampsOrdered (_cache (_evictExpired clock w)).
Proof.
  intros Hinv k e Hk. apply (Hinv k).
  rewrite evictExpired_cache in Hk.
  eapply lookup_weaken; [exact Hk | apply evictAt_subseteq].
Qed.

Lemma getCached_stampsOrdered clock cacheKey allowExpired w :
  stampsOrdered (_cache w) →
  stampsOrdered (_cache (_getCached clock cacheKey allowExpired w).2).
Proof.
  intros Hinv. unfold _getCached.
  destruct allowExpired.
  - by destruct (_cache w !! cacheKey).
  - apply (evictExpired_stampsOrdered clock) in Hinv.
    destruct (_cache (_evictExpired clock w) !! cacheKey) as [e|]; [|done].
    unfold _isExpired. simpl. by case_bool_decide.
Qed.
End store_properties.

(** Eviction precision: of an expired entry and a fresh one, only the
    expired one goes. *)
Example evictExpired_precision :
  let w :=
    mkState {["A" := mkEntry (Some "a") 5 0; "B" := mkEntry (Some "b") 50 0]}
      300 10 0 in
  let w' := _evictExpired (λ n, Z.of_nat n) w in
  _cache w' !! "A" = None ∧ _cache w' !! "B" = Some (mkEntry (Some "b") 50 0).
Proof. vm_compute. split; reflexivity. Qed.

(** C9 fails on the code: [_setCached] reads the clock once for
    [expires_at] and once more for [created_at].  With a time-to-live of
    zero and a clock that moved between the two readings the entry is
    stamped as expiring before it was created. *)
Lemma setCached_zero_ttl_stamps :
  let w := _setCached (λ n, Z.of_nat n) "K" (Some "v") (Some 0) init in
  ∃ e, _cache w !! "K" = Some e
       ∧ expires_at e = 0 ∧ created_at e = 1
       ∧ ¬ (expires_at e >= created_at e).
Proof.
  exists (mkEntry (Some "v") 0 1). split; [|split; [|split]].
  - vm_compute. reflexivity.
  - reflexivity.
  - reflexivity.
  - simpl. lia.
Qed.

(** ** [_cachedCall] *)

Section call_properties.
Context {V Arg : Type} (clock : nat → Z) (str : Arg → string).
Implicit Types (w wf : State V) (ttl : option Z) (args : list Arg)
  (kwargs : list (string * Arg))
  (methodFunc : list Arg → list (string * Arg) → State V
                → Outcome (option V) * State V).

(** The state in which the fetch runs: the fresh-entry test has read the
    clock once if the key had an entry, and not at all otherwise. *)
Lemma cachedCall_miss methodName methodFunc args ttl kwargs w :
  let cacheKey := _getCacheKey str methodName args kwargs in
  (∀ entry, _cache w !! cacheKey = Some entry →
            clock (reads w) > expires_at entry) →
  _cachedCall clock str methodName methodFunc args ttl kwargs w
  = fetchAndStore clock cacheKey methodFunc args ttl kwargs
      (beforeFetch w cacheKey).
Proof.
  intros cacheKey Hstale. unfold _cachedCall, beforeFetch, readsAfterCheck.
  fold cacheKey. destruct (_cache w !! cacheKey) as [entry|] eqn:Hk.
  - unfold _isExpired. simpl.
    by rewrite bool_decide_eq_true_2 by by apply Hstale.
  - by destruct w.
Qed.

Lemma cachedCall_hit methodName methodFunc args ttl kwargs w entry :
  _cache w !! _getCacheKey str methodName args kwargs = Some entry →
  clock (reads w) ≤ expires_at entry →
  _cachedCall clock str methodName methodFunc args ttl kwargs w
  = (Return (data entry),
     mkState (_cache w) (_default_ttl w) (S (reads w)) (fetches w)).
Proof.
  intros Hk Hfresh. unfold _cachedCall. rewrite Hk.
  unfold _isExpired. simpl.
  by rewrite bool_decide_eq_false_2 by lia.
Qed.

(** What [_cachedCall] does below the fresh-entry test, by what the
    fetch did: [wf] is the state the fetch left. *)
Lemma fetchAndStore_stored cacheKey methodFunc args ttl kwargs w wf v :
  methodFunc args kwargs w = (Return (Some v), wf) →
  fetchAndStore clock cacheKey methodFunc args ttl kwargs w
  = (Return (Some v),
     mkState
       (evictAt (clock (S (S (reads wf))))
          (<[cacheKey := mkEntry (Some v)
                           (clock (reads wf) + default (_default_ttl wf) ttl)
                           (clock (S (reads wf)))]> (_cache wf)))
       (_default_ttl wf) (S (S (S (reads wf)))) (S (fetches wf))).
Proof. intros Hf. unfold fetchAndStore, invoke. by rewrite Hf. Qed.

Lemma fetchAndStore_nothing cacheKey methodFunc args ttl kwargs w wf :
  methodFunc args kwargs w = (Return None, wf) →
  fetchAndStore clock cacheKey methodFunc args ttl kwargs w
  = (Return None,
     mkState (_cache wf) (_default_ttl wf) (reads wf) (S (fetches wf))).
Proof. intros Hf. unfold fetchAndStore, invoke. by rewrite Hf. Qed.

Lemma fetchAndStore_rate_limited cacheKey methodFunc args ttl kwargs w wf e :
  methodFunc args kwargs w = (Raise e, wf) →
  isRateLimitError e = true →
  fetchAndStore clock cacheKey methodFunc args ttl kwargs w
  = (Return (_cache wf !! cacheKey ≫= data),
     mkState (_cache wf) (_default_ttl wf) (reads wf) (S (fetches wf))).
Proof.
  intros Hf He. unfold fetchAndStore, invoke. rewrite Hf, He. simpl.
  by destruct (_cache wf !! cacheKey).
Qed.

Lemma fetchAndStore_hard_failure cacheKey methodFunc args ttl kwargs w wf e :
  methodFunc args kwargs w = (Raise e, wf) →
  isRateLimitError e = false →
  fetchAndStore clock cacheKey methodFunc args ttl kwargs w
  = (Raise e,
     mkState (_cache wf) (_default_ttl wf) (reads wf) (S (fetches wf))).
Proof. intros Hf He. unfold fetchAndStore, invoke. by rewrite Hf, He. Qed.

(** C1.  When the fetch raises an error that counts as rate limiting and
    has not itself changed the cache, [_cachedCall] does not raise: it
    returns the value cached under the key if the key has an entry,
    fresh or stale, and [None] if it has none; and it leaves the cache
    as it was. *)
Theorem cachedCall_rate_limited methodName methodFunc args ttl kwargs w e wf :
  let cacheKey := _getCacheKey str methodName args kwargs in
  methodFunc args kwargs (beforeFetch w cacheKey) = (Raise e, wf) →
  _cache wf = _cache w →
  isRateLimitError e = true →
  let res := _cachedCall clock str methodName methodFunc args ttl kwargs w in
  res.1 = Return (match _cache w !! cacheKey with
                  | Some entry => data entry
                  | None => None
                  end)
  ∧ _cache res.2 = _cache w.
Proof.
  intros cacheKey Hf Hsame He res. subst res.
  destruct (_cache w !! cacheKey) as [entry|] eqn:Hk.
  - destruct (decide (clock (reads w) ≤ expires_at entry)) as [Hfresh|Hstale].
    + by rewrite (cachedCall_hit _ _ _ _ _ _ entry).
    + rewrite cachedCall_miss; fold cacheKey.
      * rewrite fetchAndStore_rate_limited with (e := e) (wf := wf) by done.
        simpl. by rewrite Hsame, Hk.
      * intros entry' Hk'. rewrite Hk in Hk'. injection Hk' as <-. lia.
  - rewrite cachedCall_miss; fold cacheKey.
    + rewrite fetchAndStore_rate_limited with (e := e) (wf := wf) by done.
      simpl. by rewrite Hsame, Hk.
    + intros entry' Hk'. by rewrite Hk in Hk'.
Qed.

(** C4 (as amended).  When a fetch is made and raises an error that does
    not count as rate limiting, [_cachedCall] raises that very error and
    does not itself read or change the cache: the cache after the call is
    the cache the fetch left, which is the cache before the call whenever
    the fetch has not changed it. *)
Theorem cachedCall_hard_failure methodName methodFunc args ttl kwargs w e wf :
  let cacheKey := _getCacheKey str methodName args kwargs in
  (∀ entry, _cache w !! cacheKey = Some entry →
            clock (reads w) > expires_at entry) →
  methodFunc args kwargs (beforeFetch w cacheKey) = (Raise e, wf) →
  isRateLimitError e = false →
  let res := _cachedCall clock str methodName methodFunc args ttl kwargs w in
  res.1 = Raise e
  ∧ _cache res.2 = _cache wf
  ∧ (_cache wf = _cache w → _cache res.2 = _cache w).
Proof.
  intros cacheKey Hstale Hf He res. subst res.
  rewrite cachedCall_miss by done. fold cacheKey.
  by rewrite fetchAndStore_hard_failure with (e := e) (wf := wf).
Qed.

(** C2 (as amended).  When the key has no fresh entry and the fetch
    returns normally, [_cachedCall] returns what the fetch returned, after
    that one fetch.  If the result is not [None] the cache is the one the
    fetch left with the result stored under the key, expiring one
    resolved time-to-live after the clock reading of the store, and then
    purged of every entry expired at the following reading.  If the
    result is [None] the cache is the one the fetch left: nothing is
    stored and nothing is evicted.  The cache the fetch left is the cache
    before the call unless the fetch itself wrote to it. *)
Theorem cachedCall_success methodName methodFunc args ttl kwargs w r wf :
  let cacheKey := _getCacheKey str methodName args kwargs in
  (∀ entry, _cache w !! cacheKey = Some entry →
            clock (reads w) > expires_at entry) →
  methodFunc args kwargs (beforeFetch w cacheKey) = (Return r, wf) →
  let n := reads wf in
  let res := _cachedCall clock str methodName methodFunc args ttl kwargs w in
  res.1 = Return r
  ∧ fetches res.2 = S (fetches wf)
  ∧ _cache res.2
    = match r with
      | Some v =>
          evictAt (clock (S (S n)))
            (<[cacheKey := mkEntry (Some v)
                             (clock n + default (_default_ttl wf) ttl)
                             (clock (S n))]> (_cache wf))
      | None => _cache wf
      end.
Proof.
  intros cacheKey Hstale Hf n res. subst res.
  rewrite cachedCall_miss by done. fold cacheKey. destruct r as [v|].
  - by rewrite fetchAndStore_stored with (v := v) (wf := wf).
  - by rewrite fetchAndStore_nothing with (wf := wf).
Qed.

Lemma clock_mono_le (n m : nat) :
  (∀ i, clock i ≤ clock (S i)) → (n ≤ m)%nat → clock n ≤ clock m.
Proof.
  intros Hmono Hle. induction Hle as [|m Hle IH]; [lia|].
  specialize (Hmono m). lia.
Qed.

(** C3.  When the key has a fresh entry, [_cachedCall] returns the cached
    value without a fetch and without touching the cache.  Hence, on a
    clock that does not run backwards: if a call finds no fresh entry,
    fetches a value and caches it with time-to-live [T], and the next
    call for the key tests the entry no later than [T] after that fetch
    returned, then both calls return that value and the two calls made
    one fetch in all. *)
Theorem cachedCall_fresh_hit methodName methodFunc args ttl kwargs w :
  let cacheKey := _getCacheKey str methodName args kwargs in
  let call := _cachedCall clock str methodName methodFunc args ttl kwargs in
  (∀ entry,
     _cache w !! cacheKey = Some entry →
     clock (reads w) ≤ expires_at entry →
     (call w).1 = Return (data entry)
     ∧ fetches (call w).2 = fetches w
     ∧ _cache (call w).2 = _cache w)
  ∧ (∀ v wf,
       (∀ i, clock i ≤ clock (S i)) →
       (∀ entry, _cache w !! cacheKey = Some entry →
                 clock (reads w) > expires_at entry) →
       methodFunc args kwargs (beforeFetch w cacheKey)
       = (Return (Some v), wf) →
       clock (reads (call w).2) - clock (reads wf)
         ≤ default (_default_ttl wf) ttl →
       (call w).1 = Return (Some v)
       ∧ (call (call w).2).1 = Return (Some v)
       ∧ fetches (call (call w).2).2 = S (fetches wf)).
Proof.
  intros cacheKey call. subst call. split.
  - intros entry Hk Hfresh.
    by rewrite (cachedCall_hit _ _ _ _ _ _ entry).
  - intros v wf Hmono Hstale Hf.
    rewrite cachedCall_miss by done. fold cacheKey.
    rewrite fetchAndStore_stored with (v := v) (wf := wf) by done. simpl.
    set (n := reads wf).
    set (T := default (_default_ttl wf) ttl).
    intros Hwithin. split; [done|].
    pose proof (Hmono (S (S n))) as H2.
    rewrite (cachedCall_hit _ _ _ _ _ _
               (mkEntry (Some v) (clock n + T) (clock (S n)))); [done| |].
    + simpl. fold cacheKey. rewrite lookup_evictAt, lookup_insert_eq.
      simpl. rewrite decide_False by lia. reflexivity.
    + simpl. lia.
Qed.
End call_properties.

Import Scenario.

Lemma cachedCall_rate_limited_witness :
  let res :=
    _cachedCall ticking id "getStockPrice" (externalFetch fetch429) ["AAPL"]
      None [] staleState in
  res.1 = Return (Some 100) ∧ _cache res.2 = _cache staleState.
Proof.
  apply (cachedCall_rate_limited ticking id "getStockPrice"
           (externalFetch fetch429) ["AAPL"] None [] staleState error429
           (beforeFetch staleState "getStockPrice|AAPL")).
  - reflexivity.
  - reflexivity.
  - vm_compute. reflexivity.
Defined.

Lemma cachedCall_hard_failure_witness :
  let res :=
    _cachedCall ticking id "getStockPrice" (externalFetch fetchHard) ["AAPL"]
      None [] staleState in
  res.1 = Raise errorHard
  ∧ _cache res.2 = _cache staleState
  ∧ (_cache staleState = _cache staleState → _cache res.2 = _cache staleState).
Proof.
  apply (cachedCall_hard_failure ticking id "getStockPrice"
           (externalFetch fetchHard) ["AAPL"] None [] staleState errorHard
           (beforeFetch staleState "getStockPrice|AAPL")).
  - intros entry Hk. vm_compute in Hk. injection Hk as <-. vm_compute.
    reflexivity.
  - reflexivity.
  - vm_compute. reflexivity.
Defined.

(** C4 (as stated) fails for a fetch that writes to the cache before it
    raises, as the batch fetch of the Yahoo provider does.  The batch
    request is answered with status 500, so the fetch falls back on
    [getStockPrice] for each symbol: the call for AAPL stores a quote in
    the cache of the provider, the call for MSFT raises an error that
    speaks of a rate limit without any of the texts [_cachedCall] looks
    for.  The fetch lets it through, and [_cachedCall] raises it as a
    hard failure with the cache changed: the quote of AAPL is in it. *)
Lemma cachedCall_hard_failure_cache_changed :
  let w := YahooFinanceProvider.init in
  let cacheKey :=
    _getCacheKey YahooFinanceProvider.str "getMultipleStocks"
      [YahooFinanceProvider.ArgTuple ["AAPL"; "MSFT"]] [] in
  let res :=
    _cachedCall ticking YahooFinanceProvider.str "getMultipleStocks"
      (YahooFinanceProvider.batchMethod ticking YahooScenario.batchDown
         YahooScenario.quoteOf YahooScenario.chartOf)
      [YahooFinanceProvider.ArgTuple ["AAPL"; "MSFT"]] None [] w in
  cacheKey = "getMultipleStocks|('AAPL', 'MSFT')"
  ∧ hasFreshEntry ticking w cacheKey = false
  ∧ res.1 = Raise YahooScenario.reached
  ∧ isRateLimitError YahooScenario.reached = false
  ∧ fetches res.2 = 3%nat
  ∧ _cache w !! "getStockPrice|AAPL" = None
  ∧ (∃ entry, _cache res.2 !! "getStockPrice|AAPL" = Some entry
              ∧ data entry = Some YahooScenario.aaplQuote)
  ∧ _cache res.2 ≠ _cache w.
Proof.
  repeat split; try (vm_compute; reflexivity).
  - eexists. split; vm_compute; reflexivity.
  - intros Hsame.
    apply (f_equal (λ c, c !! "getStockPrice|AAPL")) in Hsame.
    vm_compute in Hsame. discriminate.
Qed.

Lemma cachedCall_success_witness :
  let res :=
    _cachedCall ticking id "getStockPrice" (externalFetch fetchQuote) ["AAPL"]
      (Some 5) [] staleState in
  res.1 = Return (Some 100)
  ∧ fetches res.2 = 2%nat
  ∧ _cache res.2
    = evictAt 9 (<["getStockPrice|AAPL" := mkEntry (Some 100) 12 8]>
                   (_cache staleState)).
Proof.
  apply (cachedCall_success ticking id "getStockPrice"
           (externalFetch fetchQuote) ["AAPL"] (Some 5) [] staleState
           (Some 100) (beforeFetch staleState "getStockPrice|AAPL")).
  - intros entry Hk. vm_compute in Hk. injection Hk as <-. vm_compute.
    reflexivity.
  - reflexivity.
Defined.

(** C2 (as stated) fails when the fetch returns [None]: the call returns
    [None], but no entry is stored under the key, and the stale entry of
    another key is not evicted. *)
Lemma cachedCall_none_not_stored :
  let res :=
    _cachedCall ticking id "getStockPrice" (externalFetch fetchNothing)
      ["AAPL"] (Some 5) [] otherStaleState in
  res.1 = Return None
  ∧ _cache res.2 !! "getStockPrice|AAPL" = None
  ∧ _cache res.2 !! "getStockPrice|MSFT" = Some otherEntry
  ∧ ticking (reads res.2) > expires_at otherEntry.
Proof. vm_compute. repeat split. Qed.

Lemma cachedCall_fresh_hit_witness :
  let call :=
    _cachedCall ticking id "getStockPrice" (externalFetch fetchQuote) ["AAPL"]
      (Some 5) [] in
  ((call freshState).1 = Return (Some 100)
   ∧ fetches (call freshState).2 = fetches freshState
   ∧ _cache (call freshState).2 = _cache freshState)
  ∧ ((call init).1 = Return (Some 100)
     ∧ (call (call init).2).1 = Return (Some 100)
     ∧ fetches (call (call init).2).2 = 1%nat).
Proof.
  split.
  - apply (proj1 (cachedCall_fresh_hit ticking id "getStockPrice"
                    (externalFetch fetchQuote) ["AAPL"] (Some 5) []
                    freshState) quoteEntry).
    + vm_compute. reflexivity.
    + vm_compute. discriminate.
  - apply (proj2 (cachedCall_fresh_hit ticking id "getStockPrice"
                    (externalFetch fetchQuote) ["AAPL"] (Some 5) [] init)
             100 (beforeFetch init "getStockPrice|AAPL")).
    + intros i. unfold ticking. lia.
    + intros entry Hk. vm_compute in Hk. discriminate.
    + reflexivity.
    + vm_compute. discriminate.
Defined.

(** ** The provider chain *)

Section chain_properties.
Context {F : Type} `{!MockOps F}.
Import EnhancedMarketDataProvider.
Implicit Types (self : EnhancedMarketDataProvider.t F) (env : Env)
  (providers pre post : list (IFinancialProvider F)) (sym : string).

Lemma priceCalls_cons i n sym :
  priceCalls i (S n) sym = PriceCall i sym :: priceCalls (S i) n sym.
Proof. reflexivity. Qed.

Lemma tryProviders_found i pre provider post sym env value :
  Forall (λ q, yieldsNothing q sym) pre →
  getStockPrice provider sym = Return (Some value) →
  tryProviders i (pre ++ provider :: post) sym env
  = (Some (Some value),
     mkEnv (draws env) (calls env ++ priceCalls i (S (length pre)) sym)).
Proof.
  intros Hpre Hp. revert i env.
  induction Hpre as [|q pre Hq _ IH]; intros i env; cbn [app tryProviders].
  - by rewrite Hp.
  - destruct (getStockPrice q sym) as [[v|]|e] eqn:Hqs.
    + by destruct (Hq v).
    + cbn [truthy]. rewrite IH. cbn [log draws calls length].
      by rewrite (priceCalls_cons i), <-app_assoc.
    + rewrite IH. cbn [log draws calls length].
      by rewrite (priceCalls_cons i), <-app_assoc.
Qed.

Lemma tryProviders_exhausted i providers sym env :
  Forall (λ q, yieldsNothing q sym) providers →
  tryProviders i providers sym env
  = (None,
     mkEnv (draws env) (calls env ++ priceCalls i (length providers) sym)).
Proof.
  intros Hall. revert i env.
  induction Hall as [|q providers Hq _ IH]; intros i env;
    cbn [tryProviders].
  - destruct env. cbn. by rewrite app_nil_r.
  - destruct (getStockPrice q sym) as [[v|]|e] eqn:Hqs.
    + by destruct (Hq v).
    + cbn [truthy]. rewrite IH. cbn [log draws calls length].
      by rewrite (priceCalls_cons i), <-app_assoc.
    + rewrite IH. cbn [log draws calls length].
      by rewrite (priceCalls_cons i), <-app_assoc.
Qed.

(** The loop only ever returns a value that passed its [if data:] test. *)
Lemma tryProviders_truthy i providers sym env value env' :
  tryProviders i providers sym env = (Some value, env') → truthy value = true.
Proof.
  revert i env.
  induction providers as [|q providers IH]; intros i env; cbn [tryProviders].
  - discriminate.
  - destruct (getStockPrice q sym) as [v|e]; [|by apply IH].
    destruct (truthy v) eqn:Hv; [|by apply IH].
    by intros [= <- _].
Qed.

(** C5.  [getStockData] asks the providers in list order.  The first one
    that returns a quote ends the query with that quote, after calls to
    it and to the providers before it and to no other; providers that
    return [None] or raise are passed over.  When all of them are passed
    over the quote of the mock provider is returned.  In every case the
    caller gets a quote, never [None] and never an exception. *)
Theorem getStockData_chain self sym env :
  (∀ pre provider post value,
     financialProviders self = pre ++ provider :: post →
     Forall (λ q, yieldsNothing q sym) pre →
     getStockPrice provider sym = Return (Some value) →
     getStockData self sym env
     = (Return (Some value),
        mkEnv (draws env) (calls env ++ priceCalls 0 (S (length pre)) sym)))
  ∧ (Forall (λ q, yieldsNothing q sym) (financialProviders self) →
     let asked :=
       mkEnv (draws env)
         (calls env ++ priceCalls 0 (length (financialProviders self)) sym) in
     let fallback :=
       MarketDataProvider.getStockData (mockProvider self) sym asked in
     getStockData self sym env = (Return (Some fallback.1), fallback.2))
  ∧ (∃ value, (getStockData self sym env).1 = Return (Some value)).
Proof.
  split; [|split].
  - intros pre provider post value Hps Hpre Hp. unfold getStockData.
    by rewrite Hps, (tryProviders_found 0 pre provider post sym env value).
  - intros Hall asked fallback. unfold getStockData.
    by rewrite tryProviders_exhausted.
  - unfold getStockData.
    destruct (tryProviders 0 (financialProviders self) sym env)
      as [[value|] env'] eqn:Hloop.
    + apply tryProviders_truthy in Hloop.
      destruct value as [d|]; [by exists d | discriminate].
    + by eexists.
Qed.

Lemma for_each_length {A B : Type} (body : A → Env → B * Env) (l : list A) env :
  length (MarketDataProvider.for_each body l env).1 = length l.
Proof.
  revert env. induction l as [|x l IH]; intros env; [done|].
  cbn [MarketDataProvider.for_each].
  destruct (body x env) as [y env1].
  specialize (IH env1).
  destruct (MarketDataProvider.for_each body l env1) as [ys env2].
  cbn in *. by rewrite IH.
Qed.

(** Position [i] of the result is the body run on element [i] of the
    list, in the environment the elements before it left behind. *)
Lemma for_each_lookup {A B : Type} (body : A → Env → B * Env) (l : list A)
    env i x :
  l !! i = Some x →
  ∃ env0, (MarketDataProvider.for_each body l env).1 !! i
          = Some (body x env0).1.
Proof.
  revert env i. induction l as [|x' l IH]; intros env i Hi; [done|].
  cbn [MarketDataProvider.for_each].
  destruct (body x' env) as [y env1] eqn:Hbody.
  destruct i as [|i].
  - injection Hi as ->. exists env.
    destruct (MarketDataProvider.for_each body l env1). by rewrite Hbody.
  - destruct (IH env1 i Hi) as [env0 Hlook]. exists env0.
    by destruct (MarketDataProvider.for_each body l env1).
Qed.

Lemma mock_symbol (mock : MarketDataProvider.t F) sym env :
  symbol (MarketDataProvider.getStockData mock sym env).1 = sym.
Proof. reflexivity. Qed.

(** C6.  [getAllStocks] returns one quote per tracked symbol, in the
    order of the symbols: at each position the quote the batch call of
    the first provider has for that symbol, if it has one, and a quote
    the mock provider makes for that symbol otherwise. *)
Theorem getAllStocks_shape self env :
  let symbols := MarketDataProvider.topStocks (mockProvider self) in
  ∃ results,
    (getAllStocks self env).1 = Return results
    ∧ length results = length symbols
    ∧ ∀ i sym, symbols !! i = Some sym →
        match batchValue self sym with
        | Some value => results !! i = Some value
        | None =>
            ∃ env0,
              results !! i
              = Some (MarketDataProvider.getStockData (mockProvider self)
                        sym env0).1
        end.
Proof.
  intros symbols. unfold getAllStocks, batchValue. fold symbols.
  destruct (financialProviders self) as [|provider rest].
  - unfold MarketDataProvider.getAllStocks. fold symbols.
    pose proof (for_each_length
      (MarketDataProvider.getStockData (mockProvider self)) symbols env) as Hlen.
    pose proof (for_each_lookup
      (MarketDataProvider.getStockData (mockProvider self)) symbols env) as Hlook.
    destruct (MarketDataProvider.for_each _ symbols env) as [results env'].
    exists results. split; [done|]. split; [done|].
    intros i sym Hi. apply (Hlook i sym Hi).
  - destruct (getMultipleStocks provider symbols) as [realData|e].
    + pose proof (for_each_length (realOrMock self realData) symbols
        (log (BatchCall 0 symbols) env)) as Hlen.
      pose proof (for_each_lookup (realOrMock self realData) symbols
        (log (BatchCall 0 symbols) env)) as Hlook.
      destruct (MarketDataProvider.for_each _ symbols _) as [results env'].
      exists results. split; [done|]. split; [done|].
      intros i sym Hi. destruct (Hlook i sym Hi) as [env0 Hres].
      unfold realOrMock in Hres.
      destruct (realData !! sym) as [value|]; [done | by exists env0].
    + unfold MarketDataProvider.getAllStocks. fold symbols.
      pose proof (for_each_length
        (MarketDataProvider.getStockData (mockProvider self)) symbols
        (log (BatchCall 0 symbols) env)) as Hlen.
      pose proof (for_each_lookup
        (MarketDataProvider.getStockData (mockProvider self)) symbols
        (log (BatchCall 0 symbols) env)) as Hlook.
      destruct (MarketDataProvider.for_each _ symbols _) as [results env'].
      exists results. split; [done|]. split; [done|].
      intros i sym Hi. apply (Hlook i sym Hi).
Qed.

(** C10.  When the batch call of the first provider raises, the
    exception does not leave [getAllStocks]: the result is what
    [getAllStocks] of the mock provider returns, run after that one call,
    which is one mock quote per tracked symbol, in order. *)
Theorem getAllStocks_batch_raises self env provider rest e :
  let symbols := MarketDataProvider.topStocks (mockProvider self) in
  financialProviders self = provider :: rest →
  getMultipleStocks provider symbols = Raise e →
  let mockRun :=
    MarketDataProvider.getAllStocks (mockProvider self)
      (log (BatchCall 0 symbols) env) in
  getAllStocks self env = (Return mockRun.1, mockRun.2)
  ∧ length mockRun.1 = length symbols
  ∧ ∀ i sym, symbols !! i = Some sym →
      ∃ env0,
        mockRun.1 !! i
        = Some (MarketDataProvider.getStockData (mockProvider self)
                  sym env0).1.
Proof.
  intros symbols Hps He mockRun. split; [|split].
  - unfold getAllStocks. fold symbols. rewrite Hps, He. fold mockRun.
    by destruct mockRun.
  - apply for_each_length.
  - intros i sym Hi. by apply for_each_lookup.
Qed.
End chain_properties.

Lemma getStockData_chain_witness :
  EnhancedMarketDataProvider.getStockData chain3 "AAPL" env0
  = (Return (Some realQuote),
     mkEnv 0 [PriceCall 0 "AAPL"; PriceCall 1 "AAPL"])
  ∧ EnhancedMarketDataProvider.getStockData chainDry "MSFT" env0
    = (Return (Some (mkStock "MSFT" 415 0 0 "MSFT stock")),
       mkEnv 1 [PriceCall 0 "MSFT"; PriceCall 1 "MSFT"; MockCall "MSFT"]).
Proof.
  split.
  - apply (proj1 (getStockData_chain chain3 "AAPL" env0)
             [emptyProvider] goodProvider [failingProvider] realQuote).
    + reflexivity.
    + constructor; [intros value; discriminate | constructor].
    + reflexivity.
  - assert (Forall (λ q, yieldsNothing q "MSFT")
              (EnhancedMarketDataProvider.financialProviders chainDry))
      as Hdry by (repeat constructor; intros value; discriminate).
    pose proof (proj1 (proj2 (getStockData_chain chainDry "MSFT" env0)) Hdry)
      as Hrun.
    vm_compute in Hrun. vm_compute. exact Hrun.
Defined.

Lemma getAllStocks_batch_raises_witness :
  EnhancedMarketDataProvider.getAllStocks chainFailing env0
  = (Return [mkStock "AAPL" 225 0 0 "AAPL stock";
             mkStock "MSFT" 415 0 1 "MSFT stock"],
     mkEnv 2 [BatchCall 0 ["AAPL"; "MSFT"]; MockCall "AAPL"; MockCall "MSFT"]).
Proof.
  assert (EnhancedMarketDataProvider.financialProviders chainFailing
          = failingProvider :: [goodProvider]) as Hps by reflexivity.
  assert (getMultipleStocks failingProvider
            (MarketDataProvider.topStocks
               (EnhancedMarketDataProvider.mockProvider chainFailing))
          = Raise boom) as Hboom by reflexivity.
  pose proof (proj1 (getAllStocks_batch_raises chainFailing env0
                       failingProvider [goodProvider] boom Hps Hboom)) as Hrun.
  vm_compute in Hrun. vm_compute. exact Hrun.
Defined.

(** The partial merge of the specification: the provider resolves AAPL
    only, and MSFT comes from the mock provider. *)
Example getAllStocks_partial_merge :
  (EnhancedMarketDataProvider.getAllStocks chainPartial env0).1
  = Return [realQuote; mkStock "MSFT" 415 0 0 "MSFT stock"].
Proof. vm_compute. reflexivity. Qed.

Example key_positional :
  _getCacheKey id "method" ["arg1"; "arg2"] [] = "method|arg1|arg2".
Proof. vm_compute. reflexivity. Qed.

Example key_kwargs :
  _getCacheKey id "method" [] [("param2", "value2"); ("param1", "value1")]
  = "method|param1=value1|param2=value2".
Proof. vm_compute. reflexivity. Qed.

Example classify_429 :
  isRateLimitError (mkExc "Exception" "429 Rate limit exceeded") = true.
Proof. vm_compute. reflexivity. Qed.

Example classify_upper :
  isRateLimitError (mkExc "Exception" "Too Many Requests") = true.
Proof. vm_compute. reflexivity. Qed.

Example classify_hard :
  isRateLimitError (mkExc "ValueError" "Not a rate limit error") = false.
Proof. vm_compute. reflexivity. Qed.

(** * Further properties of the code *)

(** ** The store: lookups *)

Section lookup_properties.
Context {V : Type}.
Implicit Types (w : State V) (clock : nat → Z) (value : option V).

(** X1.  A value stored with [_setCached] is what a lookup that allows expired
    data returns next, whatever the clock and the time-to-live, and that
    lookup changes nothing; lookups of other keys see what they saw before
    the store. *)
Theorem setCached_getCached_allowExpired clock cacheKey value ttl w :
  let w' := _setCached clock cacheKey value ttl w in
  _getCached clock cacheKey true w' = (value, w')
  ∧ ∀ other, other ≠ cacheKey →
      (_getCached clock other true w').1 = (_getCached clock other true w).1.
Proof.
  intros w'. subst w'. unfold _getCached. split.
  - by rewrite setCached_cache, lookup_insert_eq.
  - intros other Hne. rewrite setCached_cache, lookup_insert_ne by done.
    by destruct (_cache w !! other).
Qed.

(** X2.  A lookup that does not allow expired data, made when the entry of the
    key is expired, returns [None] and deletes the entry: a lookup that
    allows expired data finds nothing afterwards. *)
Theorem getCached_fresh_only_drops_stale clock cacheKey w entry :
  _cache w !! cacheKey = Some entry →
  clock (reads w) > expires_at entry →
  let res := _getCached clock cacheKey false w in
  res.1 = None
  ∧ _cache res.2 !! cacheKey = None
  ∧ (_getCached clock cacheKey true res.2).1 = None.
Proof.
  intros Hk Hexp res. subst res. unfold _getCached. cbv zeta.
  assert (_cache (_evictExpired clock w) !! cacheKey = None) as Hgone.
  { rewrite evictExpired_cache, lookup_evictAt, Hk. simpl.
    rewrite decide_True by lia. done. }
  rewrite Hgone. simpl. rewrite evictExpired_cache in Hgone.
  by rewrite Hgone.
Qed.

(** X3.  On a clock that does not run backwards, a value stored with
    [_setCached] is returned by a lookup that does not allow expired data,
    provided the lookup tests the entry no later than one time-to-live
    after the store began. *)
Theorem setCached_getCached_fresh clock cacheKey value ttl w :
  (∀ i, clock i ≤ clock (S i)) →
  clock (S (S (S (reads w)))) - clock (reads w)
    ≤ default (_default_ttl w) ttl →
  (_getCached clock cacheKey false (_setCached clock cacheKey value ttl w)).1
  = value.
Proof.
  intros Hmono Hwithin. unfold _getCached. cbv zeta.
  pose proof (Hmono (S (S (reads w)))) as Hstep.
  rewrite evictExpired_cache, setCached_reads, setCached_cache.
  rewrite lookup_evictAt, lookup_insert_eq. simpl.
  rewrite decide_False by lia.
  unfold _isExpired. simpl.
  by rewrite bool_decide_eq_false_2 by lia.
Qed.

(** X4.  A lookup that does not allow expired data only ever returns the data
    of an entry that was in the cache and that is not expired at either
    of the two clock readings the lookup makes. *)
Theorem getCached_fresh_only_sound clock cacheKey w v :
  (_getCached clock cacheKey false w).1 = Some v →
  ∃ entry,
    _cache w !! cacheKey = Some entry
    ∧ data entry = Some v
    ∧ clock (reads w) ≤ expires_at entry
    ∧ clock (S (reads w)) ≤ expires_at entry.
Proof.
  unfold _getCached. cbv zeta.
  rewrite evictExpired_cache, lookup_evictAt. unfold survives.
  destruct (_cache w !! cacheKey) as [entry|]; [|done].
  destruct (decide (expires_at entry < clock (reads w))) as [|Hfresh];
    [done|].
  unfold _isExpired. simpl. case_bool_decide as Hexp; [done|].
  simpl. intros Hdata. exists entry. repeat split; [done|lia|lia].
Qed.
End lookup_properties.

Lemma getCached_fresh_only_drops_stale_witness :
  let res := _getCached ticking "getStockPrice|AAPL" false staleState in
  res.1 = None
  ∧ _cache res.2 !! "getStockPrice|AAPL" = None
  ∧ (_getCached ticking "getStockPrice|AAPL" true res.2).1 = None.
Proof.
  apply (getCached_fresh_only_drops_stale ticking "getStockPrice|AAPL"
           staleState quoteEntry).
  - vm_compute. reflexivity.
  - vm_compute. reflexivity.
Defined.

Lemma setCached_getCached_fresh_witness :
  (_getCached ticking "K" false
     (_setCached ticking "K" (Some 7) (Some 5) init)).1 = Some 7.
Proof.
  apply (setCached_getCached_fresh ticking "K" (Some 7) (Some 5) init).
  - intros i. unfold ticking. lia.
  - vm_compute. discriminate.
Defined.

Lemma getCached_fresh_only_sound_witness :
  ∃ entry,
    _cache freshState !! "getStockPrice|AAPL" = Some entry
    ∧ data entry = Some 100
    ∧ ticking (reads freshState) ≤ expires_at entry
    ∧ ticking (S (reads freshState)) ≤ expires_at entry.
Proof.
  apply (getCached_fresh_only_sound ticking "getStockPrice|AAPL" freshState 100).
  vm_compute. reflexivity.
Defined.

(** ** Text of exceptions and of keys *)

Section text_properties.

Lemma str_app_cons a (s t : string) : String a s +:+ t = String a (s +:+ t).
Proof. reflexivity. Qed.

Lemma str_app_assoc (s t u : string) : (s +:+ t) +:+ u = s +:+ (t +:+ u).
Proof.
  induction s as [|a s IH]; [done|].
  by rewrite !str_app_cons, IH.
Qed.

Lemma prefix_spec (n s : string) :
  String.prefix n s = true ↔ ∃ post, s = n +:+ post.
Proof.
  revert s. induction n as [|a n IH]; intros s.
  - split; [intros _; by exists s | intros _; by destruct s].
  - destruct s as [|b s]; simpl.
    + split; [done | by intros [post ?]].
    + destruct (ascii_dec a b) as [->|Hne].
      * rewrite IH. split; intros [post Hs]; exists post.
        -- by rewrite str_app_cons, Hs.
        -- rewrite str_app_cons in Hs. by injection Hs.
      * split; [done|]. intros [post Hs]. rewrite str_app_cons in Hs.
        injection Hs as Hab _. by destruct Hne.
Qed.

(** [needle in hay] holds exactly when [hay] is some text, then [needle],
    then some text. *)
Lemma contains_spec (needle hay : string) :
  PyStr.contains needle hay = true
  ↔ ∃ pre post, hay = pre +:+ needle +:+ post.
Proof.
  induction hay as [|b hay IH]; cbn [PyStr.contains].
  - rewrite orb_false_r, prefix_spec. split.
    + intros [post Hs]. by exists "", post.
    + intros (pre & post & Hs). destruct pre as [|c pre]; [by exists post|].
      by rewrite str_app_cons in Hs.
  - rewrite orb_true_iff, prefix_spec, IH. split.
    + intros [[post Hs]|(pre & post & Hs)].
      * by exists "", post.
      * exists (String b pre), post. by rewrite str_app_cons, Hs.
    + intros (pre & post & Hs). destruct pre as [|c pre].
      * left. by exists post.
      * right. rewrite str_app_cons in Hs. injection Hs as _ Hs.
        by exists pre, post.
Qed.

Lemma lower_app (s t : string) :
  PyStr.lower (s +:+ t) = PyStr.lower s +:+ PyStr.lower t.
Proof.
  induction s as [|a s IH]; [done|].
  rewrite str_app_cons. cbn [PyStr.lower]. by rewrite IH, str_app_cons.
Qed.

(** Lower-casing works character by character, so a split of the
    lower-cased text comes from a split of the text. *)
Lemma lower_split (s a b : string) :
  PyStr.lower s = a +:+ b →
  ∃ s1 s2, s = s1 +:+ s2 ∧ PyStr.lower s1 = a ∧ PyStr.lower s2 = b.
Proof.
  revert s. induction a as [|c a IH]; intros s Hs.
  - by exists "", s.
  - destruct s as [|d s]; [done|].
    rewrite str_app_cons in Hs. cbn [PyStr.lower] in Hs.
    injection Hs as Hc Hs. destruct (IH s Hs) as (s1 & s2 & -> & <- & <-).
    exists (String d s1), s2. repeat split.
    cbn [PyStr.lower]. by rewrite Hc.
Qed.

Lemma contains_lower (pattern s : string) :
  PyStr.contains pattern (PyStr.lower s) = true
  ↔ ∃ pre mid post, s = pre +:+ mid +:+ post ∧ PyStr.lower mid = pattern.
Proof.
  rewrite contains_spec. split.
  - intros (pre' & post' & Hs).
    destruct (lower_split _ _ _ Hs) as (pre & rest & -> & _ & Hrest).
    destruct (lower_split _ _ _ Hrest) as (mid & post & -> & Hmid & _).
    by exists pre, mid, post.
  - intros (pre & mid & post & -> & <-).
    exists (PyStr.lower pre), (PyStr.lower post). by rewrite !lower_app.
Qed.

(** X5.  An exception counts as rate limiting exactly when its text contains,
    in any mix of upper and lower case and anywhere in it, one of the four
    texts ["429"], ["rate limit exceeded"], ["too many requests"] and
    ["rate limited"]; the class of the exception plays no part. *)
Theorem isRateLimitError_iff (e : PyException) :
  isRateLimitError e = true
  ↔ ∃ pre mid post,
      exc_str e = pre +:+ mid +:+ post
      ∧ PyStr.lower mid ∈ rateLimitPatterns.
Proof.
  unfold isRateLimitError, rateLimitPatterns. cbv zeta.
  rewrite !orb_true_iff, !contains_lower. split.
  - intros [[[H|H]|H]|H]; destruct H as (pre & mid & post & Hs & Hmid);
      exists pre, mid, post; (split; [done|]); rewrite Hmid;
      repeat first [apply list_elem_of_here | apply list_elem_of_further].
  - intros (pre & mid & post & Hs & Hmid).
    repeat (apply elem_of_cons in Hmid as [Hmid|Hmid]);
      [| | | |by apply elem_of_nil in Hmid].
    + left; left; left. by exists pre, mid, post.
    + left; left; right. by exists pre, mid, post.
    + left; right. by exists pre, mid, post.
    + right. by exists pre, mid, post.
Qed.

Lemma concat_cons_nonempty (sep x : string) (l1 : list string) y l2 :
  String.concat sep (x :: l1 ++ y :: l2)
  = x +:+ sep +:+ String.concat sep (l1 ++ y :: l2).
Proof. by destruct l1. Qed.

Lemma concat_separator (sep u v : string) (l1 l2 : list string) :
  String.concat sep (l1 ++ (u +:+ sep +:+ v) :: l2)
  = String.concat sep (l1 ++ u :: v :: l2).
Proof.
  induction l1 as [|x l1 IH].
  - destruct l2 as [|y l2]; [done|].
    cbn [app String.concat]. by rewrite !str_app_assoc.
  - cbn [app]. by rewrite !concat_cons_nonempty, IH.
Qed.

Context {Arg : Type} (str : Arg → string).

(** X6.  The key does not tell arguments apart from their separator: one
    positional argument whose text is [a|b] gives the same key as the two
    positional arguments [a] and [b] in its place. *)
Theorem getCacheKey_separator_collision (methodName : string)
    (pre post : list Arg) (x a b : Arg) (kwargs : list (string * Arg)) :
  str x = str a +:+ "|" +:+ str b →
  _getCacheKey str methodName (pre ++ x :: post) kwargs
  = _getCacheKey str methodName (pre ++ a :: b :: post) kwargs.
Proof.
  intros Hx. unfold _getCacheKey, PyStr.join. cbv zeta.
  rewrite !fmap_app, !fmap_cons, Hx, <-!app_assoc. cbn [app].
  apply (concat_separator "|" (str a) (str b) (methodName :: (str <$> pre))).
Qed.
End text_properties.

Lemma getCacheKey_separator_collision_witness :
  _getCacheKey id "getStockPrice" ["AAPL|MSFT"] []
  = _getCacheKey id "getStockPrice" ["AAPL"; "MSFT"] [].
Proof.
  apply (getCacheKey_separator_collision id "getStockPrice" [] []
           "AAPL|MSFT" "AAPL" "MSFT" []).
  reflexivity.
Defined.

(** ** [_cachedCall]: what a call leaves for the next one *)

Section call_sequences.
Context {V Arg : Type} (clock : nat → Z) (str : Arg → string).
Implicit Types (w wf : State V) (ttl : option Z) (args : list Arg)
  (kwargs : list (string * Arg))
  (methodFunc : list Arg → list (string * Arg) → State V
                → Outcome (option V) * State V)
  (outcome : list Arg → list (string * Arg) → nat → Outcome (option V)).

(** X7.  [_cachedCall] itself writes to the cache only when the fetch returns
    a value.  Whenever the fetch returns [None] or raises, rate limiting
    or not, the cache after the call is the cache before it if a fresh
    entry was served, and otherwise the cache the fetch left; so it is
    the cache before the call whenever the fetch has not written to
    it. *)
Theorem cachedCall_cache_untouched methodName methodFunc args ttl kwargs w r wf :
  let cacheKey := _getCacheKey str methodName args kwargs in
  methodFunc args kwargs (beforeFetch w cacheKey) = (r, wf) →
  (∀ v, r ≠ Return (Some v)) →
  let res := _cachedCall clock str methodName methodFunc args ttl kwargs w in
  _cache res.2 = (if hasFreshEntry clock w cacheKey then _cache w
                  else _cache wf)
  ∧ (_cache wf = _cache w → _cache res.2 = _cache w).
Proof.
  intros cacheKey Hf Hnone res. subst res.
  assert (_cache (fetchAndStore clock cacheKey methodFunc args ttl kwargs
                    (beforeFetch w cacheKey)).2
          = _cache wf) as Hfetch.
  { unfold fetchAndStore, invoke. rewrite Hf.
    destruct r as [[v|]|e].
    - by destruct (Hnone v).
    - done.
    - destruct (isRateLimitError e); [|done]. simpl.
      by destruct (_cache wf !! cacheKey). }
  assert (_cache (_cachedCall clock str methodName methodFunc args ttl kwargs
                    w).2
          = (if hasFreshEntry clock w cacheKey then _cache w else _cache wf))
    as Hcache.
  { unfold hasFreshEntry.
    destruct (_cache w !! cacheKey) as [entry|] eqn:Hk.
    - case_bool_decide as Hfresh.
      + by rewrite (cachedCall_hit _ _ _ _ _ _ _ _ entry).
      + rewrite cachedCall_miss; [apply Hfetch|]. fold cacheKey.
        intros entry' Hk'. rewrite Hk in Hk'. injection Hk' as <-. lia.
    - rewrite cachedCall_miss; [apply Hfetch|]. fold cacheKey.
      intros entry' Hk'. by rewrite Hk in Hk'. }
  split; [exact Hcache|].
  intros Hsame. rewrite Hcache, Hsame. by destruct (hasFreshEntry _ _ _).
Qed.

(** X8.  The fallback on a stale entry, for a fetch that does not touch the
    cache.  A value that a call fetched and that outlived the eviction of
    that call, but is expired when the next call for the key tests it, is
    not served from the fresh-entry test: the next call fetches again,
    and when that fetch is rate limited it returns the stale value, which
    stays in the cache.  The two calls made two fetches. *)
Theorem cachedCall_value_then_rate_limited methodName outcome args ttl
    kwargs w v e :
  let cacheKey := _getCacheKey str methodName args kwargs in
  let call :=
    _cachedCall clock str methodName (externalFetch outcome) args ttl kwargs in
  let n := readsAfterCheck w cacheKey in
  (∀ entry, _cache w !! cacheKey = Some entry →
            clock (reads w) > expires_at entry) →
  outcome args kwargs (fetches w) = Return (Some v) →
  clock (S (S n)) ≤ clock n + default (_default_ttl w) ttl →
  clock n + default (_default_ttl w) ttl < clock (S (S (S n))) →
  outcome args kwargs (S (fetches w)) = Raise e →
  isRateLimitError e = true →
  (call w).1 = Return (Some v)
  ∧ hasFreshEntry clock (call w).2 cacheKey = false
  ∧ (call (call w).2).1 = Return (Some v)
  ∧ fetches (call (call w).2).2 = S (S (fetches w))
  ∧ ∃ entry, _cache (call (call w).2).2 !! cacheKey = Some entry
             ∧ data entry = Some v.
Proof.
  intros cacheKey call n Hstale Hf Hkept Hold Hf2 He. subst call.
  rewrite (cachedCall_miss _ _ _ _ _ _ _ w) by done. fold cacheKey.
  rewrite fetchAndStore_stored
    with (v := v) (wf := beforeFetch w cacheKey)
    by (unfold externalFetch; cbn [beforeFetch fetches]; by rewrite Hf).
  cbn [fst snd beforeFetch reads _cache _default_ttl fetches]. fold n.
  set (T := default (_default_ttl w) ttl) in *.
  set (stored := mkEntry (Some v) (clock n + T) (clock (S n))).
  set (w1 := mkState _ _ _ _).
  assert (_cache w1 !! cacheKey = Some stored) as Hk1.
  { subst w1. simpl. rewrite lookup_evictAt, lookup_insert_eq. simpl.
    by rewrite decide_False by lia. }
  assert (fetches w1 = S (fetches w)) as Hfetches by done.
  assert (reads w1 = S (S (S n))) as Hreads by done.
  clearbody w1.
  split; [done|]. split.
  { unfold hasFreshEntry. rewrite Hk1, Hreads.
    apply bool_decide_eq_false_2. simpl. lia. }
  rewrite cachedCall_miss; fold cacheKey.
  - rewrite fetchAndStore_rate_limited
      with (e := e) (wf := beforeFetch w1 cacheKey);
      [|unfold externalFetch; cbn [beforeFetch fetches];
        by rewrite Hfetches, Hf2|done].
    cbn [fst snd beforeFetch _cache fetches]. rewrite Hk1, Hfetches.
    split; [done|]. split; [done|]. by exists stored.
  - intros entry Hk. rewrite Hk1 in Hk. injection Hk as <-.
    rewrite Hreads. simpl. lia.
Qed.

(** X9.  A value fetched with a time-to-live shorter than the time the clock
    advanced between the store and the eviction of the same call is
    evicted at once: when the fetch is rate limited at the next call,
    that call has nothing to fall back on and returns [None]. *)
Theorem cachedCall_short_ttl_no_fallback methodName outcome args ttl
    kwargs w v e :
  let cacheKey := _getCacheKey str methodName args kwargs in
  let call :=
    _cachedCall clock str methodName (externalFetch outcome) args ttl kwargs in
  let n := readsAfterCheck w cacheKey in
  (∀ entry, _cache w !! cacheKey = Some entry →
            clock (reads w) > expires_at entry) →
  outcome args kwargs (fetches w) = Return (Some v) →
  clock n + default (_default_ttl w) ttl < clock (S (S n)) →
  outcome args kwargs (S (fetches w)) = Raise e →
  isRateLimitError e = true →
  (call w).1 = Return (Some v)
  ∧ _cache (call w).2 !! cacheKey = None
  ∧ (call (call w).2).1 = Return None.
Proof.
  intros cacheKey call n Hstale Hf Hshort Hf2 He. subst call.
  rewrite (cachedCall_miss _ _ _ _ _ _ _ w) by done. fold cacheKey.
  rewrite fetchAndStore_stored
    with (v := v) (wf := beforeFetch w cacheKey)
    by (unfold externalFetch; cbn [beforeFetch fetches]; by rewrite Hf).
  cbn [fst snd beforeFetch reads _cache _default_ttl fetches]. fold n.
  set (T := default (_default_ttl w) ttl) in *.
  set (w1 := mkState _ _ _ _).
  assert (_cache w1 !! cacheKey = None) as Hk1.
  { subst w1. simpl. rewrite lookup_evictAt, lookup_insert_eq. simpl.
    by rewrite decide_True by lia. }
  assert (fetches w1 = S (fetches w)) as Hfetches by done.
  clearbody w1.
  split; [done|]. split.
  { rewrite lookup_evictAt, lookup_insert_eq. simpl.
    by rewrite decide_True by lia. }
  rewrite cachedCall_miss; fold cacheKey.
  - rewrite fetchAndStore_rate_limited
      with (e := e) (wf := beforeFetch w1 cacheKey);
      [|unfold externalFetch; cbn [beforeFetch fetches];
        by rewrite Hfetches, Hf2|done].
    cbn [fst snd beforeFetch _cache]. by rewrite Hk1.
  - intros entry Hk. by rewrite Hk1 in Hk.
Qed.
End call_sequences.

Import Scenario2.
Lemma cachedCall_cache_untouched_witness :
  let res :=
    _cachedCall ticking id "getStockPrice" (externalFetch fetchHard) ["AAPL"]
      None [] staleState in
  _cache res.2
  = (if hasFreshEntry ticking staleState "getStockPrice|AAPL"
     then _cache staleState else _cache staleState)
  ∧ (_cache staleState = _cache staleState
     → _cache res.2 = _cache staleState).
Proof.
  apply (cachedCall_cache_untouched ticking id "getStockPrice"
           (externalFetch fetchHard) ["AAPL"] None [] staleState
           (Raise errorHard) (beforeFetch staleState "getStockPrice|AAPL")).
  - reflexivity.
  - intros v. discriminate.
Defined.

Lemma cachedCall_value_then_rate_limited_witness :
  let call :=
    _cachedCall ticking id "getStockPrice" (externalFetch fetchOnceThen429)
      ["AAPL"] (Some 2) [] in
  (call init).1 = Return (Some 100)
  ∧ hasFreshEntry ticking (call init).2 "getStockPrice|AAPL" = false
  ∧ (call (call init).2).1 = Return (Some 100)
  ∧ fetches (call (call init).2).2 = 2%nat
  ∧ ∃ entry, _cache (call (call init).2).2 !! "getStockPrice|AAPL" = Some entry
             ∧ data entry = Some 100.
Proof.
  apply (cachedCall_value_then_rate_limited ticking id "getStockPrice"
           fetchOnceThen429 ["AAPL"] (Some 2) [] init 100 error429).
  - intros entry Hk. vm_compute in Hk. discriminate.
  - reflexivity.
  - vm_compute. discriminate.
  - vm_compute. reflexivity.
  - reflexivity.
  - vm_compute. reflexivity.
Defined.

Lemma cachedCall_short_ttl_no_fallback_witness :
  let call :=
    _cachedCall ticking id "getStockPrice" (externalFetch fetchOnceThen429)
      ["AAPL"] (Some 0) [] in
  (call init).1 = Return (Some 100)
  ∧ _cache (call init).2 !! "getStockPrice|AAPL" = None
  ∧ (call (call init).2).1 = Return None.
Proof.
  apply (cachedCall_short_ttl_no_fallback ticking id "getStockPrice"
           fetchOnceThen429 ["AAPL"] (Some 0) [] init 100 error429).
  - intros entry Hk. vm_compute in Hk. discriminate.
  - reflexivity.
  - vm_compute. reflexivity.
  - reflexivity.
  - vm_compute. reflexivity.
Defined.

(** ** The scraping provider *)

Section scraping_properties.
Context {F : Type} (clock : nat → Z)
  (session_get : string → nat → ScrapingFinancialProvider.HttpResult)
  (scrape : string → Outcome (option (F * F * F))).
Implicit Types (w : State (StockData F)) (sym : string).

Local Abbreviation priceKey sym := (_getCacheKey id "getStockPrice" [sym] []).
Local Abbreviation fetchPrice :=
  (ScrapingFinancialProvider.boundMethod
     (ScrapingFinancialProvider._fetchStockPrice session_get scrape)).

Lemma contains_429_lower (s : string) :
  PyStr.contains "429" s = true →
  PyStr.contains "429" (PyStr.lower s) = true.
Proof.
  rewrite !contains_spec. intros (pre & post & ->).
  exists (PyStr.lower pre), (PyStr.lower post). by rewrite !lower_app.
Qed.

Lemma getStockPrice_miss sym w :
  (∀ entry, _cache w !! priceKey sym = Some entry →
            clock (reads w) > expires_at entry) →
  ScrapingFinancialProvider.getStockPrice clock session_get scrape sym w
  = fetchAndStore clock (priceKey sym) fetchPrice [sym] None []
      (beforeFetch w (priceKey sym)).
Proof.
  intros Hstale. unfold ScrapingFinancialProvider.getStockPrice.
  by rewrite cachedCall_miss.
Qed.

(** X10.  When the site answers with status 429 and the symbol has no fresh
    entry, [getStockPrice] does not raise: it returns the quote cached
    for the symbol, however old, or [None] if there is none, and leaves
    the cache as it is. *)
Theorem getStockPrice_status_429 sym w text :
  (∀ entry, _cache w !! priceKey sym = Some entry →
            clock (reads w) > expires_at entry) →
  session_get ("https://finance.yahoo.com/quote/" +:+ sym) (fetches w)
  = ScrapingFinancialProvider.HttpResponse 429 text →
  (ScrapingFinancialProvider.getStockPrice clock session_get scrape sym
     w).1
  = Return (match _cache w !! priceKey sym with
            | Some entry => data entry
            | None => None
            end)
  ∧ _cache (ScrapingFinancialProvider.getStockPrice clock session_get scrape sym
     w).2 = _cache w.
Proof.
  intros Hstale Hget. rewrite getStockPrice_miss by done.
  rewrite fetchAndStore_rate_limited
    with (e := mkExc "Exception" "Rate limit 429")
         (wf := beforeFetch w (priceKey sym)).
  - cbn [fst snd beforeFetch _cache].
    by destruct (_cache w !! priceKey sym).
  - cbn [beforeFetch fetches ScrapingFinancialProvider.boundMethod].
    unfold ScrapingFinancialProvider._fetchStockPrice,
      ScrapingFinancialProvider.tryBlock.
    by rewrite Hget.
  - reflexivity.
Qed.

(** X11.  When the request fails in any way that speaks neither of ["429"] nor
    of a rate limit (a connection error, a status other than 200 and
    429), [getStockPrice] returns [None] even if a quote of the symbol is
    still in the cache, and the cache is left as it is. *)
Theorem getStockPrice_other_failure sym w :
  (∀ entry, _cache w !! priceKey sym = Some entry →
            clock (reads w) > expires_at entry) →
  (∃ e, session_get ("https://finance.yahoo.com/quote/" +:+ sym) (fetches w)
        = ScrapingFinancialProvider.HttpRaise e
        ∧ ScrapingFinancialProvider.letThrough e = false)
  ∨ (∃ status_code text,
       session_get ("https://finance.yahoo.com/quote/" +:+ sym) (fetches w)
       = ScrapingFinancialProvider.HttpResponse status_code text
       ∧ status_code ≠ 429 ∧ status_code ≠ 200) →
  (ScrapingFinancialProvider.getStockPrice clock session_get scrape sym
     w).1 = Return None
  ∧ _cache (ScrapingFinancialProvider.getStockPrice clock session_get scrape sym
     w).2 = _cache w.
Proof.
  intros Hstale Hfail. rewrite getStockPrice_miss by done.
  rewrite fetchAndStore_nothing with (wf := beforeFetch w (priceKey sym));
    [done|].
  cbn [beforeFetch fetches ScrapingFinancialProvider.boundMethod].
    unfold ScrapingFinancialProvider._fetchStockPrice,
      ScrapingFinancialProvider.tryBlock.
  destruct Hfail as [(e & -> & He)|(status_code & text & -> & H429 & H200)].
  - by rewrite He.
  - by rewrite decide_False, decide_True by done.
Qed.

(** X12.  [getStockPrice] can raise.  An exception that leaves it comes from
    the request or from the parsing, speaks of a rate limit, and has
    neither ["429"] nor any of the texts the mixin treats as rate
    limiting in it. *)
Theorem getStockPrice_raises sym w e :
  (ScrapingFinancialProvider.getStockPrice clock session_get scrape sym
     w).1 = Raise e →
  PyStr.contains "rate limit" (PyStr.lower (exc_str e)) = true
  ∧ PyStr.contains "429" (exc_str e) = false
  ∧ isRateLimitError e = false.
Proof.
  unfold ScrapingFinancialProvider.getStockPrice, _cachedCall.
  assert (∀ w0,
    (fetchAndStore clock (priceKey sym) fetchPrice [sym] None [] w0).1
    = Raise e →
    PyStr.contains "rate limit" (PyStr.lower (exc_str e)) = true
    ∧ PyStr.contains "429" (exc_str e) = false
    ∧ isRateLimitError e = false) as Hfetch.
  { intros w0. unfold fetchAndStore, invoke.
    cbn [ScrapingFinancialProvider.boundMethod].
    unfold ScrapingFinancialProvider._fetchStockPrice.
    destruct (ScrapingFinancialProvider.tryBlock session_get scrape sym
                (fetches w0)) as [[v|]|e0];
      [done..|].
    destruct (ScrapingFinancialProvider.letThrough e0) eqn:Hthrough; [|done].
    destruct (isRateLimitError e0) eqn:Hlimit.
    { by destruct (_cache _ !! _). }
    cbn [fst]. intros [= ->].
    assert (PyStr.contains "429" (exc_str e) = false) as H429.
    { destruct (PyStr.contains "429" (exc_str e)) eqn:Hc; [|done].
      apply contains_429_lower in Hc.
      unfold isRateLimitError in Hlimit. cbv zeta in Hlimit.
      by rewrite Hc in Hlimit. }
    unfold ScrapingFinancialProvider.letThrough in Hthrough.
    rewrite H429 in Hthrough.
    by repeat split. }
  destruct (_cache w !! priceKey sym) as [entry|]; [|apply Hfetch].
  unfold _isExpired. cbn [time_time].
  case_bool_decide; [apply Hfetch | done].
Qed.

Lemma collect_keys symbols (results : gmap string (StockData F)) w found :
  (ScrapingFinancialProvider.collect clock session_get scrape symbols
     results w).1 = Return found →
  ∀ sym, is_Some (found !! sym) → is_Some (results !! sym) ∨ sym ∈ symbols.
Proof.
  revert results w. induction symbols as [|s symbols IH]; intros results w.
  - cbn. intros [= <-] sym Hin. by left.
  - cbn [ScrapingFinancialProvider.collect].
    destruct (ScrapingFinancialProvider.getStockPrice clock session_get scrape s
     w) as [[[v|]|e] w'].
    + intros Hrun sym Hin.
      destruct (IH _ _ Hrun sym Hin) as [Hres|Hrest].
      * destruct (decide (s = sym)) as [->|Hne].
        -- right. apply list_elem_of_here.
        -- left. by rewrite lookup_insert_ne in Hres.
      * right. by apply list_elem_of_further.
    + intros Hrun sym Hin.
      destruct (IH _ _ Hrun sym Hin) as [Hres|Hrest]; [by left|].
      right. by apply list_elem_of_further.
    + done.
Qed.

Lemma getMultipleStocks_keys symbols w found :
  (ScrapingFinancialProvider.getMultipleStocks clock session_get scrape
     symbols w).1 = Return found →
  ∀ sym, is_Some (found !! sym) → sym ∈ take 5 symbols.
Proof.
  intros Hrun sym Hin.
  unfold ScrapingFinancialProvider.getMultipleStocks in Hrun.
  destruct (collect_keys _ _ _ _ Hrun sym Hin) as [Hempty|?]; [|done].
  rewrite lookup_empty in Hempty. by destruct Hempty.
Qed.

(** X13.  [getMultipleStocks] resolves no symbol beyond the first five it is
    given: every key of the dict it returns is one of them, and the dict
    has five entries at most. *)
Theorem getMultipleStocks_first_five symbols w found :
  (ScrapingFinancialProvider.getMultipleStocks clock session_get scrape
     symbols w).1 = Return found →
  (∀ sym, is_Some (found !! sym) → sym ∈ take 5 symbols)
  ∧ (size found ≤ 5)%nat.
Proof.
  intros Hrun.
  pose proof (getMultipleStocks_keys symbols w found Hrun) as Hkeys.
  split; [done|].
  rewrite <-length_map_to_list, <-(length_fmap fst).
  etrans; [apply submseteq_length, (NoDup_submseteq _ (take 5 symbols))|].
  - apply NoDup_fst_map_to_list.
  - intros sym Hin. apply Hkeys.
    apply list_elem_of_fmap in Hin as [[k v] [-> Hkv]].
    apply elem_of_map_to_list in Hkv. by exists v.
  - rewrite length_take. lia.
Qed.

Context `{!MockOps F}.

(** X14.  With the scraping provider first in the chain, [getAllStocks] shows
    a mock quote at every position whose symbol is not among the first
    five tracked symbols, whatever the site returns. *)
Theorem getAllStocks_beyond_first_five
    (self : EnhancedMarketDataProvider.t F) env w rest i sym :
  let symbols :=
    MarketDataProvider.topStocks
      (EnhancedMarketDataProvider.mockProvider self) in
  EnhancedMarketDataProvider.financialProviders self
  = ScrapingFinancialProvider.asProvider clock session_get scrape w :: rest →
  symbols !! i = Some sym →
  sym ∉ take 5 symbols →
  ∃ results env0,
    (EnhancedMarketDataProvider.getAllStocks self env).1 = Return results
    ∧ results !! i
      = Some (MarketDataProvider.getStockData
                (EnhancedMarketDataProvider.mockProvider self) sym env0).1.
Proof.
  intros symbols Hps Hi Hbeyond.
  unfold EnhancedMarketDataProvider.getAllStocks. fold symbols.
  rewrite Hps.
  cbn [ScrapingFinancialProvider.asProvider getMultipleStocks].
  destruct (ScrapingFinancialProvider.getMultipleStocks clock session_get scrape
     symbols w).1 as [realData|e] eqn:Hbatch.
  - pose proof (for_each_lookup
      (EnhancedMarketDataProvider.realOrMock self realData) symbols
      (log (BatchCall 0 symbols) env) i sym Hi) as [env0 Hlook].
    destruct (MarketDataProvider.for_each _ symbols _) as [results env'].
    exists results, env0. split; [done|].
    cbn [fst] in Hlook. rewrite Hlook.
    unfold EnhancedMarketDataProvider.realOrMock.
    destruct (realData !! sym) as [value|] eqn:Hreal; [|done].
    destruct Hbeyond.
    apply (getMultipleStocks_keys _ _ _ Hbatch). by exists value.
  - unfold MarketDataProvider.getAllStocks. fold symbols.
    pose proof (for_each_lookup
      (MarketDataProvider.getStockData
         (EnhancedMarketDataProvider.mockProvider self)) symbols
      (log (BatchCall 0 symbols) env) i sym Hi) as [env0 Hlook].
    destruct (MarketDataProvider.for_each _ symbols _) as [results env'].
    by exists results, env0.
Qed.
End scraping_properties.

Import ScrapingScenario.

Lemma getStockPrice_status_429_witness :
  (ScrapingFinancialProvider.getStockPrice ticking site429 scrapeOk "AAPL"
     staleQuoteState).1 = Return (Some realQuote)
  ∧ _cache (ScrapingFinancialProvider.getStockPrice ticking site429 scrapeOk
              "AAPL" staleQuoteState).2 = _cache staleQuoteState.
Proof.
  apply (getStockPrice_status_429 ticking site429 scrapeOk "AAPL"
           staleQuoteState "Too Many Requests").
  - intros entry Hk. vm_compute in Hk. injection Hk as <-. vm_compute.
    reflexivity.
  - reflexivity.
Defined.

Lemma getStockPrice_other_failure_witness :
  (ScrapingFinancialProvider.getStockPrice ticking siteDown scrapeOk "AAPL"
     staleQuoteState).1 = Return None
  ∧ _cache (ScrapingFinancialProvider.getStockPrice ticking siteDown scrapeOk
              "AAPL" staleQuoteState).2 = _cache staleQuoteState.
Proof.
  apply (getStockPrice_other_failure ticking siteDown scrapeOk "AAPL"
           staleQuoteState).
  - intros entry Hk. vm_compute in Hk. injection Hk as <-. vm_compute.
    reflexivity.
  - left. exists connectionError. split; [reflexivity|].
    vm_compute. reflexivity.
Defined.

Lemma getStockPrice_raises_witness :
  PyStr.contains "rate limit" (PyStr.lower (exc_str vagueError)) = true
  ∧ PyStr.contains "429" (exc_str vagueError) = false
  ∧ isRateLimitError vagueError = false.
Proof.
  apply (getStockPrice_raises ticking siteVague scrapeOk "AAPL"
           staleQuoteState vagueError).
  vm_compute. reflexivity.
Defined.

Lemma getMultipleStocks_first_five_witness :
  ∃ found,
    (ScrapingFinancialProvider.getMultipleStocks ticking siteUp scrapeOk
       sixSymbols ScrapingFinancialProvider.init).1 = Return found
    ∧ (∀ sym, is_Some (found !! sym) → sym ∈ take 5 sixSymbols)
    ∧ (size found ≤ 5)%nat.
Proof.
  eexists. split; [vm_compute; reflexivity|].
  apply (getMultipleStocks_first_five ticking siteUp scrapeOk sixSymbols
           ScrapingFinancialProvider.init).
  vm_compute. reflexivity.
Defined.

Lemma getAllStocks_beyond_first_five_witness :
  ∃ results env0,
    (EnhancedMarketDataProvider.getAllStocks chainScraping Scenario.env0).1
    = Return results
    ∧ results !! 5%nat
      = Some (MarketDataProvider.getStockData mockSix "S6" env0).1.
Proof.
  apply (getAllStocks_beyond_first_five ticking siteUp scrapeOk chainScraping
           Scenario.env0 ScrapingFinancialProvider.init [] 5 "S6").
  - reflexivity.
  - reflexivity.
  - apply (bool_decide_unpack _). vm_compute. exact I.
Defined.

(** ** Registration of providers and the mock provider *)

Section registration_properties.
Context {F : Type} `{!MockOps F}.
Import EnhancedMarketDataProvider.
Implicit Types (self : EnhancedMarketDataProvider.t F) (env : Env)
  (providers : list (IFinancialProvider F)) (sym : string)
  (candidate : Registration.Registrant F).

(** The providers before the first one that has a quote have none. *)
Lemma first_quote_split providers sym :
  Exists (λ q, ∃ value, getStockPrice q sym = Return (Some value)) providers →
  ∃ pre q post value,
    providers = pre ++ q :: post
    ∧ Forall (λ q, yieldsNothing q sym) pre
    ∧ getStockPrice q sym = Return (Some value).
Proof.
  induction providers as [|p providers IH]; intros Hex.
  - by apply Exists_nil in Hex.
  - destruct (getStockPrice p sym) as [[v|]|e] eqn:Hp.
    + exists [], p, providers, v. by repeat split.
    + apply Exists_cons in Hex as [[value Hv]|Hex]; [congruence|].
      destruct (IH Hex) as (pre & q & post & value & -> & Hpre & Hq).
      exists (p :: pre), q, post, value. repeat split; [|done].
      constructor; [|done]. intros value'. congruence.
    + apply Exists_cons in Hex as [[value Hv]|Hex]; [congruence|].
      destruct (IH Hex) as (pre & q & post & value & -> & Hpre & Hq).
      exists (p :: pre), q, post, value. repeat split; [|done].
      constructor; [|done]. intros value'. congruence.
Qed.

(** X15.  Adding a provider never changes a single-symbol query that a
    provider already in the chain answers: [getStockData] returns the
    same quote after the same calls, and the new provider is not asked.
    An unavailable provider changes nothing at all. *)
Theorem addFinancialProvider_getStockData self candidate sym env :
  (Registration.isAvailable candidate = false →
   Registration.addFinancialProvider self candidate = self)
  ∧ (Exists (λ q, ∃ value, getStockPrice q sym = Return (Some value))
       (financialProviders self) →
     getStockData (Registration.addFinancialProvider self candidate) sym env
     = getStockData self sym env).
Proof.
  unfold Registration.addFinancialProvider. split.
  - by intros ->.
  - intros Hex. destruct (Registration.isAvailable candidate); [|done].
    destruct (first_quote_split _ _ Hex)
      as (pre & q & post & value & Hps & Hpre & Hq).
    unfold getStockData. cbn [financialProviders mockProvider].
    rewrite Hps, <-app_assoc. cbn [app].
    by rewrite !(tryProviders_found 0 pre q _ sym env value).
Qed.

(** X16.  A provider added to a chain that already has one plays no part in
    [getAllStocks]: the batch query only ever asks the first provider. *)
Theorem addFinancialProvider_getAllStocks self candidate env :
  financialProviders self ≠ [] →
  getAllStocks (Registration.addFinancialProvider self candidate) env
  = getAllStocks self env.
Proof.
  intros Hne. unfold Registration.addFinancialProvider.
  destruct (Registration.isAvailable candidate); [|done].
  unfold getAllStocks. cbn [financialProviders mockProvider].
  by destruct (financialProviders self).
Qed.

(** X17.  An available provider added to a chain whose providers all have
    nothing for the symbol is asked after them, and the quote it returns
    is the answer; the mock provider is not asked. *)
Theorem addFinancialProvider_last_resort self candidate sym env value :
  Registration.isAvailable candidate = true →
  Forall (λ q, yieldsNothing q sym) (financialProviders self) →
  getStockPrice (Registration.provider candidate) sym = Return (Some value) →
  getStockData (Registration.addFinancialProvider self candidate) sym env
  = (Return (Some value),
     mkEnv (draws env)
       (calls env
        ++ priceCalls 0 (S (length (financialProviders self))) sym)).
Proof.
  intros Havailable Hnothing Hvalue.
  unfold Registration.addFinancialProvider. rewrite Havailable.
  unfold getStockData. cbn [financialProviders].
  by rewrite (tryProviders_found 0 _ _ [] sym env value).
Qed.

(** X18.  [getAllStocks] of the mock provider returns one quote per tracked
    symbol, for that symbol and in the order of the list; it draws one
    random number per symbol. *)
Theorem mock_getAllStocks_symbols (mock : MarketDataProvider.t F) env :
  let run := MarketDataProvider.getAllStocks mock env in
  symbol <$> run.1 = MarketDataProvider.topStocks mock
  ∧ draws run.2 = (draws env + length (MarketDataProvider.topStocks mock))%nat
  ∧ calls run.2 = calls env ++ (MockCall <$> MarketDataProvider.topStocks mock).
Proof.
  unfold MarketDataProvider.getAllStocks.
  generalize (MarketDataProvider.topStocks mock). intros symbols.
  revert env. induction symbols as [|sym symbols IH]; intros env.
  - cbn. by rewrite app_nil_r, Nat.add_0_r.
  - cbn [MarketDataProvider.for_each].
    destruct (MarketDataProvider.getStockData mock sym env)
      as [quote env1] eqn:Hquote.
    specialize (IH env1).
    destruct (MarketDataProvider.for_each _ symbols env1) as [quotes env2].
    cbn [fst snd] in *. destruct IH as (Hsyms & Hdraws & Hcalls).
    unfold MarketDataProvider.getStockData in Hquote.
    injection Hquote as <- <-. cbn [log draws calls] in *.
    rewrite fmap_cons, Hsyms, Hdraws, Hcalls. cbn [symbol length].
    repeat split; [lia|]. by rewrite <-app_assoc.
Qed.
End registration_properties.

Lemma addFinancialProvider_getStockData_witness :
  EnhancedMarketDataProvider.getStockData
    (Registration.addFinancialProvider chain3
       (Registration.mkRegistrant true failingProvider)) "AAPL" env0
  = EnhancedMarketDataProvider.getStockData chain3 "AAPL" env0.
Proof.
  apply (proj2 (addFinancialProvider_getStockData chain3
                  (Registration.mkRegistrant true failingProvider)
                  "AAPL" env0)).
  apply Exists_cons_tl, Exists_cons_hd. by exists realQuote.
Defined.

Lemma addFinancialProvider_getAllStocks_witness :
  EnhancedMarketDataProvider.getAllStocks
    (Registration.addFinancialProvider chainPartial
       (Registration.mkRegistrant true goodProvider)) env0
  = EnhancedMarketDataProvider.getAllStocks chainPartial env0.
Proof.
  apply (addFinancialProvider_getAllStocks chainPartial
           (Registration.mkRegistrant true goodProvider) env0).
  discriminate.
Defined.

Lemma addFinancialProvider_last_resort_witness :
  EnhancedMarketDataProvider.getStockData
    (Registration.addFinancialProvider chainDry
       (Registration.mkRegistrant true goodProvider)) "AAPL" env0
  = (Return (Some realQuote),
     mkEnv 0 [PriceCall 0 "AAPL"; PriceCall 1 "AAPL"; PriceCall 2 "AAPL"]).
Proof.
  apply (addFinancialProvider_last_resort chainDry
           (Registration.mkRegistrant true goodProvider) "AAPL" env0 realQuote).
  - reflexivity.
  - repeat constructor; intros value; discriminate.
  - reflexivity.
Defined.

(** ** The market detector *)

Section detector_properties.
Import MarketDetector.

Lemma countryData_ten :
  map_Forall (λ _ market, length (topStocks market) = 10%nat) countryData.
Proof. apply (bool_decide_unpack _). vm_compute. exact I. Qed.

Lemma detectCountry_in_table (geo : GeoResult) :
  is_Some (countryData !! detectCountry geo).
Proof.
  assert (is_Some (countryData !! "US")) as Hus by (by eexists).
  unfold detectCountry.
  destruct geo as [e|status_code [entry|e]]; [done| |done].
  case_decide; [|done]. by case_decide.
Qed.

(** X19.  [detectCountry] never raises and always names a country of the
    table, whatever the geolocation service does: on an exception, a
    status other than 200, a body that is not JSON, a missing entry or a
    country the table lacks it answers ["US"]. *)
Theorem detectCountry_supported (geo : GeoResult) :
  is_Some (countryData !! detectCountry geo)
  ∧ (detectCountry geo ≠ "US" →
     ∃ code, geo = GeoResponse 200 (Return (Some code))
             ∧ detectCountry geo = code).
Proof.
  split; [apply detectCountry_in_table|].
  unfold detectCountry.
  destruct geo as [e|status_code [entry|e]]; [done| |done].
  case_decide as Hstatus; [|done]. subst status_code.
  case_decide as Hcode; [|done].
  destruct entry as [code|]; [|done].
  intros _. by exists code.
Qed.

(** X20.  Whatever country is asked for, [getMarketInfo] returns ten tracked
    symbols and keeps the country code it worked with.  It flags a
    fallback exactly when a non-empty code was given that the table
    lacks; the market is then the list of US symbols in USD under the
    index name ["Global Markets"].  A detected country is never a
    fallback. *)
Theorem getMarketInfo_shape (geo : GeoResult) (countryCode : option string) :
  let info := getMarketInfo geo countryCode in
  length (info_topStocks info) = 10%nat
  ∧ (info_fallback info = true
     ↔ ∃ code, countryCode = Some code ∧ code ≠ ""
               ∧ countryData !! code = None)
  ∧ (info_fallback info = true →
     info_topStocks info = topStocks usMarket
     ∧ info_currency info = "USD"
     ∧ info_indexes info = ["Global Markets"]
     ∧ countryCode = Some (info_country info)).
Proof.
  intros info. subst info. unfold getMarketInfo.
  destruct (given countryCode) as [code|] eqn:Hgiven.
  - assert (countryCode = Some code ∧ code ≠ "") as [-> Hne].
    { unfold given in Hgiven. destruct countryCode as [[|c s]|]; [done| |done].
      by injection Hgiven as <-. }
    destruct (countryData !! code) as [market|] eqn:Hcode; cbn.
    + split; [by apply (countryData_ten code)|]. split; [|done].
      split; [done|]. intros (code' & [= <-] & _ & Hnone). congruence.
    + split; [reflexivity|]. split; [|done].
      split; [|done]. intros _. by exists code.
  - destruct (detectCountry_in_table geo) as [market Hmarket].
    rewrite Hmarket. cbn.
    split; [by apply (countryData_ten (detectCountry geo))|].
    split; [|done]. split; [done|].
    intros (code & -> & Hne & _). unfold given in Hgiven.
    by destruct code.
Qed.
End detector_properties.

(** ** News *)

Section news_properties.
Import News.
Implicit Types (providers pre post : list INewsProvider)
  (country : string) (symbols : list string).

Lemma news_tryProviders_found pre provider post country symbols item news :
  Forall (λ q, yieldsNoNews q country symbols) pre →
  getMarketNews provider country symbols = Return (item :: news) →
  NewsChain.tryProviders (pre ++ provider :: post) country symbols
  = Some (item :: news).
Proof.
  intros Hpre Hp.
  induction Hpre as [|q pre Hq _ IH]; cbn [app NewsChain.tryProviders].
  - by rewrite Hp.
  - destruct (getMarketNews q country symbols) as [[|item' news']|e] eqn:Hqs;
      [exact IH| |exact IH].
    by destruct (Hq item' news').
Qed.

Lemma news_tryProviders_exhausted providers country symbols :
  Forall (λ q, yieldsNoNews q country symbols) providers →
  NewsChain.tryProviders providers country symbols = None.
Proof.
  intros Hall.
  induction Hall as [|q providers Hq _ IH]; cbn [NewsChain.tryProviders];
    [done|].
  destruct (getMarketNews q country symbols) as [[|item' news']|e] eqn:Hqs;
    [exact IH| |exact IH].
  by destruct (Hq item' news').
Qed.

Lemma news_tryProviders_nonempty providers country symbols news :
  NewsChain.tryProviders providers country symbols = Some news → news ≠ [].
Proof.
  induction providers as [|q providers IH]; cbn [NewsChain.tryProviders];
    [done|].
  destruct (getMarketNews q country symbols) as [[|item' news']|e];
    [exact IH| |exact IH].
  by intros [= <-].
Qed.

(** X21.  [getMarketNews] of the chain returns the list of the first provider
    that has news, whatever the providers after it would do; providers
    that return the empty list or raise are passed over; when all are
    passed over the news of the mock provider is returned.  An empty
    answer can only be the mock provider's. *)
Theorem getMarketNews_chain (self : NewsChain.t) :
  let country := NewsChain.countryCode self in
  let symbols := NewsChain.topStocks self in
  (∀ pre provider post item news,
     NewsChain.newsProviders self = pre ++ provider :: post →
     Forall (λ q, yieldsNoNews q country symbols) pre →
     getMarketNews provider country symbols = Return (item :: news) →
     NewsChain.getMarketNews self = item :: news)
  ∧ (Forall (λ q, yieldsNoNews q country symbols)
       (NewsChain.newsProviders self) →
     NewsChain.getMarketNews self = NewsChain.mockNews self)
  ∧ (NewsChain.getMarketNews self = [] → NewsChain.mockNews self = []).
Proof.
  intros country symbols. unfold NewsChain.getMarketNews.
  fold country symbols. split; [|split].
  - intros pre provider post item news Hps Hpre Hp.
    by rewrite Hps, (news_tryProviders_found pre provider post _ _ item news).
  - intros Hall. by rewrite news_tryProviders_exhausted.
  - destruct (NewsChain.tryProviders _ country symbols) as [news|] eqn:Hloop;
      [|done].
    intros ->. by apply news_tryProviders_nonempty in Hloop.
Qed.

Section realistic_properties.
Context (currentMonth currentYear : string)
  (sample : list NewsItem → nat → nat → list NewsItem).

Lemma realistic_at_least_three country symbols :
  (3 ≤ length (RealisticNewsProvider._getRealisticNews currentMonth
                 currentYear country symbols))%nat.
Proof.
  unfold RealisticNewsProvider._getRealisticNews. cbv zeta.
  case_decide as Hfew; [|lia].
  rewrite length_app. cbn [RealisticNewsProvider.generalNews length]. lia.
Qed.

(** X22.  [getMarketNews] of the realistic provider returns exactly three items
    for every country and every list of symbols, the empty list
    included: it always has three templates or more to draw from. *)
Theorem realistic_getMarketNews_three country symbols n :
  sampleContract sample →
  (3 ≤ length (RealisticNewsProvider._getRealisticNews currentMonth
                 currentYear country symbols))%nat
  ∧ length (RealisticNewsProvider.getMarketNews currentMonth currentYear
              sample country symbols n) = 3%nat.
Proof.
  intros Hsample.
  pose proof (realistic_at_least_three country symbols) as Hthree.
  split; [done|].
  unfold RealisticNewsProvider.getMarketNews. cbv zeta.
  rewrite Hsample by lia. lia.
Qed.

(** X23.  With the realistic provider first in the chain, [getMarketNews] of
    the chain returns the three items of that provider: no later provider
    and no news of the mock provider is ever used. *)
Theorem getMarketNews_chain_realistic (self : NewsChain.t) n rest :
  sampleContract sample →
  NewsChain.newsProviders self
  = RealisticNewsProvider.asProvider currentMonth currentYear sample n :: rest →
  NewsChain.getMarketNews self
  = RealisticNewsProvider.getMarketNews currentMonth currentYear sample
      (NewsChain.countryCode self) (NewsChain.topStocks self) n
  ∧ length (NewsChain.getMarketNews self) = 3%nat.
Proof.
  intros Hsample Hps.
  assert (length (RealisticNewsProvider.getMarketNews currentMonth currentYear
            sample (NewsChain.countryCode self) (NewsChain.topStocks self) n)
          = 3%nat) as Hlen.
  { unfold RealisticNewsProvider.getMarketNews. cbv zeta.
    pose proof (realistic_at_least_three (NewsChain.countryCode self)
                  (NewsChain.topStocks self)).
    rewrite Hsample by lia. lia. }
  assert (NewsChain.getMarketNews self
          = RealisticNewsProvider.getMarketNews currentMonth currentYear sample
              (NewsChain.countryCode self) (NewsChain.topStocks self) n) as ->.
  { unfold NewsChain.getMarketNews. rewrite Hps.
    cbn [NewsChain.tryProviders RealisticNewsProvider.asProvider getMarketNews].
    by destruct (RealisticNewsProvider.getMarketNews _ _ _ _ _ _). }
  done.
Qed.
End realistic_properties.
End news_properties.

Import NewsScenario.

Lemma firstItems_contract : sampleContract firstItems.
Proof.
  intros population k n Hk. unfold firstItems. rewrite length_take. lia.
Qed.

Lemma getMarketNews_chain_witness :
  NewsChain.getMarketNews chainSilent = [mockItem].
Proof.
  apply (proj1 (proj2 (getMarketNews_chain chainSilent))).
  repeat constructor; intros item news; discriminate.
Defined.

Lemma realistic_getMarketNews_three_witness :
  (3 ≤ length (RealisticNewsProvider._getRealisticNews "May" "2025" "JP" []))%nat
  ∧ length (RealisticNewsProvider.getMarketNews "May" "2025" firstItems "JP"
              [] 0) = 3%nat.
Proof.
  apply (realistic_getMarketNews_three "May" "2025" firstItems "JP" [] 0).
  apply firstItems_contract.
Defined.

Lemma getMarketNews_chain_realistic_witness :
  NewsChain.getMarketNews chainRealistic
  = RealisticNewsProvider.getMarketNews "May" "2025" firstItems "US"
      ["AAPL"; "MSFT"] 0
  ∧ length (NewsChain.getMarketNews chainRealistic) = 3%nat.
Proof.
  apply (getMarketNews_chain_realistic "May" "2025" firstItems chainRealistic
           0 [brokenProvider]).
  - apply firstItems_contract.
  - reflexivity.
Defined.

(** ** The stocks table of the dashboard *)

Section watch_properties.

(** X24.  The explanation cell of the stocks table is always exactly forty
    characters wide: an explanation of forty characters or fewer is
    kept and padded with spaces on the right, and a longer one is cut
    to its first thirty-seven characters followed by three dots. *)
Theorem explanationCell_width {Char : Type} (dot space : Char)
    (explanation : list Char) :
  let cell := MarketWatch.explanationCell dot space explanation in
  length cell = 40%nat
  ∧ ((length explanation ≤ 40)%nat →
     cell = explanation ++ replicate (40 - length explanation) space)
  ∧ ((40 < length explanation)%nat →
     cell = take 37 explanation ++ [dot; dot; dot]).
Proof.
  intros cell. subst cell.
  unfold MarketWatch.explanationCell, MarketWatch.ljust. cbv zeta.
  case_decide as Hlong.
  - assert (length (take 37 explanation ++ [dot; dot; dot]) = 40%nat) as Hlen.
    { rewrite length_app, length_take. cbn [length]. lia. }
    rewrite Hlen. cbn [replicate Nat.sub]. rewrite app_nil_r.
    split; [done|]. split; [lia|done].
  - rewrite length_app, length_replicate.
    split; [lia|]. split; [done|lia].
Qed.

Context {F : Type} `{!MarketWatch.AdviceOps F}.

(** X25.  The action [_getTradingAdvice] recommends depends on the change of
    the stock alone: whatever the news, the first component of the advice
    is the same; the news only choose between two reasons. *)
Theorem getTradingAdvice_action_ignores_news (stock : StockData F)
    (news news' : list News.NewsItem) :
  (MarketWatch._getTradingAdvice stock news).1
  = (MarketWatch._getTradingAdvice stock news').1.
Proof.
  unfold MarketWatch._getTradingAdvice. cbv zeta.
  destruct (MarketWatch.flt (changePercent stock) MarketWatch.lit_minus_2
            && MarketWatch.flt MarketWatch.lit_2
                 (MarketWatch.fabs (changePercent stock))).
  { by repeat case_decide. }
  destruct (MarketWatch.flt MarketWatch.lit_3 (changePercent stock)); [done|].
  destruct (MarketWatch.flt MarketWatch.lit_1_5 (changePercent stock)).
  { by repeat case_decide. }
  by destruct (MarketWatch.flt _ MarketWatch.lit_1).
Qed.
End watch_properties.

(** ** The MarketWatch provider *)

Section marketwatch_properties.
Context {F : Type}
  (session_get : string → nat → ScrapingFinancialProvider.HttpResult)
  (scrape : string → Outcome (option (F * F * F))).
Implicit Types (st : MarketWatchProvider.State F) (sym : string).

Lemma marketwatch_cache_grows sym st :
  MarketWatchProvider.cache st
  ⊆ MarketWatchProvider.cache
      (MarketWatchProvider.getStockPrice session_get scrape sym st).2.
Proof.
  unfold MarketWatchProvider.getStockPrice.
  destruct (MarketWatchProvider.cache st !! sym) as [q|] eqn:Hk; [done|].
  destruct (MarketWatchProvider.tryBlock _ _ _ _) as [[q|]|e]; [|done..].
  cbn. by apply insert_subseteq.
Qed.

(** X26.  A quote the MarketWatch provider has returned once is returned for
    that symbol ever after, without a request and whatever the time:
    the next call returns it and changes nothing, and no call for any
    symbol removes or alters an entry of the cache. *)
Theorem marketwatch_cached_forever sym st quote :
  let after := (MarketWatchProvider.getStockPrice session_get scrape sym st).2 in
  (MarketWatchProvider.getStockPrice session_get scrape sym st).1 = Some quote →
  MarketWatchProvider.getStockPrice session_get scrape sym after
  = (Some quote, after)
  ∧ ∀ other st',
      MarketWatchProvider.cache st' !! sym = Some quote →
      MarketWatchProvider.cache
        (MarketWatchProvider.getStockPrice session_get scrape other st').2
      !! sym = Some quote.
Proof.
  intros after Hquote. split.
  - assert (MarketWatchProvider.cache after !! sym = Some quote) as Hcached.
    { subst after. revert Hquote. unfold MarketWatchProvider.getStockPrice.
      destruct (MarketWatchProvider.cache st !! sym) as [q|] eqn:Hk.
      - by intros [= <-].
      - destruct (MarketWatchProvider.tryBlock _ _ _ _) as [[q|]|e]; [|done..].
        intros [= <-]. cbn. by rewrite lookup_insert_eq. }
    unfold MarketWatchProvider.getStockPrice at 1. by rewrite Hcached.
  - intros other st' Hk.
    by eapply lookup_weaken; [|apply marketwatch_cache_grows].
Qed.
End marketwatch_properties.

Lemma marketwatch_cached_forever_witness :
  MarketWatchProvider.getStockPrice siteUp scrapeOk "AAPL"
    (MarketWatchProvider.getStockPrice siteUp scrapeOk "AAPL"
       (MarketWatchProvider.mkState ∅ 0)).2
  = (Some (mkStock "AAPL" 100 1 1 "Real-time scraped from MarketWatch"),
     (MarketWatchProvider.getStockPrice siteUp scrapeOk "AAPL"
        (MarketWatchProvider.mkState ∅ 0)).2).
Proof.
  assert ((MarketWatchProvider.getStockPrice siteUp scrapeOk "AAPL"
             (MarketWatchProvider.mkState ∅ 0)).1
          = Some (mkStock "AAPL" 100 1 1 "Real-time scraped from MarketWatch"))
    as Hquote by (vm_compute; reflexivity).
  apply (proj1 (marketwatch_cached_forever siteUp scrapeOk "AAPL"
                  (MarketWatchProvider.mkState ∅ 0) _ Hquote)).
Defined.

